(** * BEAST example driver and catalog wrapper

    A shallow embedding of two files of the BEAST examples,
    - [beast/examples/phat_small_multidistance/run_beast.py], the command-line
      driver that sequences the five pipeline stages, and
    - [beast/examples/production_runs_2019/datamodel.py], the class
      [GenFluxCatalog] and the factory [get_obscat],
    with the properties of the artifact file names, the distance conversion,
    the magnitude cuts, the flux accessor and the stage dispatch. *)

From Stdlib Require Import String Ascii ZArith List Lia Permutation.
From stdpp Require Import base option list strings gmap sorting.

Local Open Scope Z_scope.
Local Open Scope nat_scope.

(** * Python strings

    A [str] is a [string]; [+:+] is Python's [+]. *)

Module Str.

(** [old in s] *)
Fixpoint contains (old s : string) : bool :=
  String.prefix old s ||
  match s with
  | EmptyString => false
  | String _ s' => contains old s'
  end.

(** The left-to-right scan of [str.replace] for a non-empty [old]: where [old]
    starts, [new] is emitted and the scan resumes after the match ([skip]
    counts the characters of the match still to pass); elsewhere the character
    is copied. *)
Fixpoint replace_from (old new : string) (skip : nat) (s : string) : string :=
  match s with
  | EmptyString => EmptyString
  | String c s' =>
      match skip with
      | S k => replace_from old new k s'
      | O =>
          if String.prefix old s
          then new +:+ replace_from old new (String.length old - 1) s'
          else String c (replace_from old new 0 s')
      end
  end.

(** With an empty [old], [str.replace] puts [new] before every character and
    at the end. *)
Fixpoint replace_empty (new s : string) : string :=
  match s with
  | EmptyString => new
  | String c s' => new +:+ String c (replace_empty new s')
  end.

(** [s.replace(old, new)] *)
Definition replace (old new s : string) : string :=
  match old with
  | EmptyString => replace_empty new s
  | String _ _ => replace_from old new 0 s
  end.

(** [s.upper()], on ASCII letters. *)
Definition upper_char (c : ascii) : ascii :=
  let n := nat_of_ascii c in
  if (97 <=? n)%nat && (n <=? 122)%nat then ascii_of_nat (n - 32) else c.

Fixpoint upper (s : string) : string :=
  match s with
  | EmptyString => EmptyString
  | String c s' => String (upper_char c) (upper s')
  end.

End Str.

(** [c in s] for a character. *)
Fixpoint has_char (c : ascii) (s : string) : bool :=
  match s with
  | EmptyString => false
  | String c' s' => if ascii_dec c c' then true else has_char c s'
  end.

(** No match of [old] that starts inside [s] runs over into [t]. *)
Definition straddle_free (old s t : string) : Prop :=
  ∀ u c v, s = u +:+ String c v →
    String.prefix old (String c v +:+ t) = String.prefix old (String c v).

(** ** Artifact file names of the driver

    [modelsedgridfile], [sed_trimname] and [noisemodel_trimname] are the
    names of the trim stage (the first also of the ast and observationmodel
    stages); [fit_modelsedgrid] is the variable [modelsedgrid] of the fit
    stage, with [noisemodelfile], [statsfile], [pdf1dfile] and [lnpfile]. *)
Definition modelsedgridfile (project : string) : string :=
  ((project +:+ "/") +:+ project) +:+ "_seds.grid.hd5".
Definition sed_trimname (project : string) : string :=
  Str.replace "_seds" "_seds_trim" (modelsedgridfile project).
Definition noisemodel_trimname (project : string) : string :=
  Str.replace "_seds" "_noisemodel" (sed_trimname project).
Definition fit_modelsedgrid (project : string) : string :=
  ((project +:+ "/") +:+ project) +:+ "_seds_trim.grid.hd5".
Definition noisemodelfile (project : string) : string :=
  Str.replace "_seds" "_noisemodel" (fit_modelsedgrid project).

Definition inputASTfile (project : string) : string :=
  ((project +:+ "/") +:+ project) +:+ "_inputAST.txt".
Definition statsfile (project : string) : string :=
  ((project +:+ "/") +:+ project) +:+ "_stats.fits".
Definition pdf1dfile (project : string) : string :=
  Str.replace "stats.fits" "pdf1d.fits" (statsfile project).
Definition lnpfile (project : string) : string :=
  Str.replace "stats.fits" "lnp.hd5" (statsfile project).

(** ** Python exceptions and results *)

Inductive exn : Type :=
  | ValueError (msg : string)
  | IndexError
  | KeyError (key : string)
  | AttributeError (msg : string)
  | NameError (name : string)
  | LibraryError (msg : string).

Inductive result (A : Type) : Type :=
  | Ok (a : A)
  | Raise (e : exn).
Arguments Ok {A} a.
Arguments Raise {A} e.

Global Instance result_ret : MRet result := @Ok.
Global Instance result_bind : MBind result := λ A B f m,
  match m with
  | Ok a => f a
  | Raise e => Raise e
  end.

Definition is_Ok {A} (r : result A) : bool :=
  match r with Ok _ => true | Raise _ => false end.

(** [l[i]] with Python's negative indices. *)
Definition py_index {A} (l : list A) (i : Z) : result A :=
  let n := Z.of_nat (length l) in
  let j := if (i <? 0)%Z then (i + n)%Z else i in
  if ((0 <=? j) && (j <? n))%Z
  then match l !! Z.to_nat j with
       | Some x => Ok x
       | None => Raise IndexError
       end
  else Raise IndexError.

(** [l[k] = x] on an array, for a loop index [k]. *)
Definition py_setitem {A} (l : list A) (k : nat) (x : A) : result (list A) :=
  if decide (k < length l) then Ok (<[k := x]> l) else Raise IndexError.

(** [enumerate(l)]. *)
Definition enumerate {A} (l : list A) : list (nat * A) := imap (λ k x, (k, x)) l.

(** A [for] loop that threads a state and stops at the first exception. *)
Fixpoint for_each {S A} (body : S → A → result S) (s : S) (l : list A) : result S :=
  match l with
  | [] => Ok s
  | x :: l' => s' ← body s x; for_each body s' l'
  end.

(** ** Arithmetic of the array element type

    The driver and the catalog wrapper compute on floating-point numbers
    through numpy; the operations they use are an interface, so that every
    statement below holds for whatever arithmetic implements it.
    [flit m e] is the literal [m·10^e] ([5.] is [flit 5 0], [6e-40] is
    [flit 6 (-40)]); [fpercentile x a q] is the value of [np.percentile] at
    the percentage [q] on the non-empty array [x :: a]. *)
Class NumOps (F : Type) := {
  flit : Z → Z → F;
  fadd : F → F → F;
  fsub : F → F → F;
  fmul : F → F → F;
  fdiv : F → F → F;
  fpow : F → F → F;
  flt : F → F → bool;
  fpercentile : F → list F → F → F;
}.

(** Exact integer arithmetic, used to run the definitions on closed inputs.

    The percentile is numpy's default, the linear interpolation between the
    two closest ranks: for [n] sorted values and a percentage [q] between 0
    and 100 the position is [q·(n-1)/100], and the value is the entry just
    below the position plus the fractional part of the position times the
    step to the next entry. The division is that of the integers, so the
    value is numpy's whenever numpy's is an integer. *)
Definition Z_percentile (x : Z) (a : list Z) (q : Z) : Z :=
  let sorted := merge_sort Z.le (x :: a) in
  let position := (q * Z.of_nat (length a))%Z in
  let below := Z.to_nat (position / 100) in
  let v_below := nth below sorted x in
  let v_above := nth (S below) sorted v_below in
  (v_below + (v_above - v_below) * (position mod 100) / 100)%Z.

Definition Z_NumOps : NumOps Z := {|
  flit m e := (m * 10 ^ e)%Z;
  fadd := Z.add; fsub := Z.sub; fmul := Z.mul; fdiv := Z.div;
  fpow := Z.pow; flt := Z.ltb;
  fpercentile := Z_percentile;
|}.

(** ** astropy units and quantities *)
Inductive astropy_unit : Type :=
  | u_mag | u_pc | u_kpc | u_Mpc | u_lyr | u_AU | u_m | u_km | u_s | u_deg.

Global Instance astropy_unit_eq_dec : EqDecision astropy_unit.
Proof. solve_decision. Defined.

(** The units of physical type length. *)
Definition is_length (u : astropy_unit) : bool :=
  match u with
  | u_pc | u_kpc | u_Mpc | u_lyr | u_AU | u_m | u_km => true
  | u_mag | u_s | u_deg => false
  end.

Record Quantity (F : Type) : Type := mkQuantity { value : F; unit_of : astropy_unit }.
Arguments mkQuantity {F} value unit_of.
Arguments value {F} q.
Arguments unit_of {F} q.

(** What the physicsmodel stage hands to the grid builders as [distances]:
    an array quantity it computed, or the configured list itself. *)
Inductive distances_arg (F : Type) : Type :=
  | QuantityArray (values : list F) (u : astropy_unit)
  | QuantityList (qs : list (Quantity F)).
Arguments QuantityArray {F} values u.
Arguments QuantityList {F} qs.

(** ** The catalog table *)

(** Modelled from the spec: the table class behind [Observations.data] and the
    indexing of [Observations] are not among the sources. A table has named
    columns, rows of one value per column, and column aliases;
    [resolve_alias] maps a logical name to the aliased column name and any
    other name to itself; indexing with a column name gives the column, with
    a row number the row, with an index array the selected rows. *)
Record Table (F : Type) : Type := mkTable {
  colnames : list string;
  rows : list (list F);
  aliases : gmap string string;
}.
Arguments mkTable {F} colnames rows aliases.
Arguments colnames {F} t.
Arguments rows {F} t.
Arguments aliases {F} t.

Section table.
Context {F : Type}.
Implicit Types (t : Table F) (row : list F).

Definition resolve_alias t (name : string) : string := default name (aliases t !! name).

Definition set_alias t (alias colname : string) : Table F :=
  mkTable (colnames t) (rows t) (<[alias := colname]> (aliases t)).

(** [t[num]]: one row. *)
Definition table_row t (num : Z) : result (list F) := py_index (rows t) num.

(** [row[name]]: the field of a row under a column name. *)
Definition row_field t row (name : string) : result F :=
  match list_find (λ c, c = name) (colnames t) with
  | Some (i, _) =>
      match row !! i with
      | Some x => Ok x
      | None => Raise IndexError
      end
  | None => Raise (ValueError ("no field of name " +:+ name))
  end.

(** [t[name]]: a column. *)
Definition table_column t (name : string) : result (list F) :=
  match list_find (λ c, c = name) (colnames t) with
  | Some (i, _) => mapM (λ row, row_field t row name) (rows t)
  | None => Raise (ValueError ("no field of name " +:+ name))
  end.

(** [t[keep]] for an index array [keep]: the selected rows. *)
Definition table_take t (keep : list nat) : result (Table F) :=
  rs ← mapM (λ i, py_index (rows t) (Z.of_nat i)) keep;
  Ok (mkTable (colnames t) rs (aliases t)).
End table.

(** ** numpy on one-dimensional arrays *)
Section numpy.
Context {F : Type} `{NumOps F}.

Definition np_zeros (n : nat) : list F := replicate n (flit 0 0).

(** An elementwise binary operation with broadcasting of a length-one operand. *)
Definition np_broadcast (op : F → F → F) (a b : list F) : result (list F) :=
  if decide (length a = length b) then Ok (zip_with op a b)
  else match a, b with
       | [x], _ => Ok (map (op x) b)
       | _, [y] => Ok (map (λ x, op x y) a)
       | _, _ => Raise (ValueError "operands could not be broadcast together")
       end.

Definition np_mul := np_broadcast fmul.
Definition np_add := np_broadcast fadd.

(** [np.percentile(a, q)] for a percentage [q] between 0 and 100: numpy
    raises [IndexError] on an empty array. *)
Definition np_percentile (a : list F) (q : F) : result F :=
  match a with
  | [] => Raise IndexError
  | x :: a' => Ok (fpercentile x a' q)
  end.

(** [np.where(a < c)]: the indices of the entries below [c]. *)
Definition np_where_lt (a : list F) (c : F) : list nat :=
  omap (λ '(i, x), if flt x c then Some i else None) (enumerate a).
End numpy.

(** ** The project configuration read by the driver *)

(** Modelled from the spec: [run_beast.py] imports the module [datamodel] of
    its own directory, which is not among the sources. The record has the
    attributes the driver and the catalog wrapper read, with the distances as
    astropy quantities (the driver reads [distances[0].unit]); its catalog
    wrapper is taken to be the class of
    [production_runs_2019/datamodel.py]. Library objects (isochrone set,
    stellar library, extinction law, prior models, calibration matrix, grids)
    are values of an abstract type [Obj]. *)
Module datamodel.
Record t (F Obj : Type) : Type := mk {
  project : string;
  filters : list string;
  basefilters : list string;
  obsfile : string;
  ast_models_selected_per_age : Z;
  ast_bands_above_maglimit : Z;
  ast_realization_per_model : Z;
  ast_maglimit : list F;
  ast_with_positions : bool;
  ast_pixel_distribution : F;
  ast_reference_image : option string;
  astfile : string;
  noisefile : string;
  absflux_a_matrix : Obj;
  distances : list (Quantity F);
  logt : list F;
  z : Obj;
  oiso : Obj;
  osl : Obj;
  extLaw : Obj;
  avs : list F;
  av_prior_model : Obj;
  rvs : list F;
  rv_prior_model : Obj;
  fAs : list F;
  fA_prior_model : Obj;
  add_spectral_properties_kwargs : option Obj;
}.
Arguments mk {F Obj}.
Arguments project {F Obj} _.
Arguments filters {F Obj} _.
Arguments basefilters {F Obj} _.
Arguments obsfile {F Obj} _.
Arguments ast_models_selected_per_age {F Obj} _.
Arguments ast_bands_above_maglimit {F Obj} _.
Arguments ast_realization_per_model {F Obj} _.
Arguments ast_maglimit {F Obj} _.
Arguments ast_with_positions {F Obj} _.
Arguments ast_pixel_distribution {F Obj} _.
Arguments ast_reference_image {F Obj} _.
Arguments astfile {F Obj} _.
Arguments noisefile {F Obj} _.
Arguments absflux_a_matrix {F Obj} _.
Arguments distances {F Obj} _.
Arguments logt {F Obj} _.
Arguments z {F Obj} _.
Arguments oiso {F Obj} _.
Arguments osl {F Obj} _.
Arguments extLaw {F Obj} _.
Arguments avs {F Obj} _.
Arguments av_prior_model {F Obj} _.
Arguments rvs {F Obj} _.
Arguments rv_prior_model {F Obj} _.
Arguments fAs {F Obj} _.
Arguments fA_prior_model {F Obj} _.
Arguments add_spectral_properties_kwargs {F Obj} _.

(** [obs_colnames = [f.upper() + '_RATE' for f in basefilters]] *)
Definition obs_colnames {F Obj} (dm : t F Obj) : list string :=
  map (λ f, Str.upper f +:+ "_RATE") (basefilters dm).
End datamodel.

(** ** The catalog wrapper object

    The attributes of an instance of [GenFluxCatalog]. *)
Module GenFluxCatalog.
Record t (F : Type) : Type := mk {
  inputFile : string;
  desc : string;
  data : Table F;
  filters : list string;
  vega_flux : list F;
  badvalue : option (Z * Z);
}.
Arguments mk {F}.
Arguments inputFile {F} _.
Arguments desc {F} _.
Arguments data {F} _.
Arguments filters {F} _.
Arguments vega_flux {F} _.
Arguments badvalue {F} _.

(** [self.<attribute> = v] *)
Definition set_data {F} (self : t F) (v : Table F) : t F :=
  mk (inputFile self) (desc self) v (filters self) (vega_flux self) (badvalue self).
Definition set_filters {F} (self : t F) (v : list string) : t F :=
  mk (inputFile self) (desc self) (data self) v (vega_flux self) (badvalue self).
Definition set_vega_flux {F} (self : t F) (v : list F) : t F :=
  mk (inputFile self) (desc self) (data self) (filters self) v (badvalue self).
Definition set_badvalue {F} (self : t F) (v : Z * Z) : t F :=
  mk (inputFile self) (desc self) (data self) (filters self) (vega_flux self) (Some v).
End GenFluxCatalog.

(** ** Calls that leave the two modules *)
Inductive printable (F : Type) : Type :=
  | PStr (s : string)
  | PNum (x : F).
Arguments PStr {F} s.
Arguments PNum {F} x.

Inductive Event (F Obj : Type) : Type :=
  | E_verify_input_format
  | E_create_project_dir (project : string)
  | E_make_iso_table (project : string) (oiso : Obj) (logtmin logtmax dlogt : F) (z : Obj)
  | E_make_spectral_grid (project : string) (oiso osl : Obj)
      (distances : distances_arg F) (add_spectral_properties_kwargs : option Obj)
  | E_add_stellar_priors (project : string) (g_spec : Obj)
  | E_make_grid_with_distances (project : string) (g_pspec : Obj)
      (distances : distances_arg F)
  | E_make_extinguished_sed_grid (project : string) (g_pdist_pspec : Obj)
      (filters : list string) (extLaw : Obj) (av rv fA : list F)
      (rv_prior_model av_prior_model fA_prior_model : Obj)
      (add_spectral_properties_kwargs : option Obj)
  | E_FileSEDGrid (fname : string)
  | E_Observations_init (inputFile desc : string)
  | E_Vega_getFlux (filters : list string)
  | E_pick_models (modelsedgrid : Obj) (mag_cuts : list F) (Nfilter N_stars Nrealize : Z)
  | E_pick_positions (filename : string) (separation : F) (refimage : option string)
  | E_make_toothpick_noise_model (noisefile astfile : string)
      (modelsedgrid absflux_a_matrix : Obj)
  | E_get_noisemodelcat (fname : string)
  | E_trim_models (modelsedgrid noisemodel_vals : Obj) (obsdata : GenFluxCatalog.t F)
      (sed_trimname noisemodel_trimname : string) (sigma_fac : F)
  | E_time_clock
  | E_summary_table_memory (obsdata : GenFluxCatalog.t F) (noisemodel_vals : Obj)
      (modelsedgrid : string) (resume : bool) (threshold : F)
      (save_every_npts lnp_npts : Z) (stats_outname pdf1d_outname lnp_outname : string)
  | E_print (items : list (printable F))
  | E_print_help.
Arguments E_verify_input_format {F Obj}.
Arguments E_create_project_dir {F Obj}.
Arguments E_make_iso_table {F Obj}.
Arguments E_make_spectral_grid {F Obj}.
Arguments E_add_stellar_priors {F Obj}.
Arguments E_make_grid_with_distances {F Obj}.
Arguments E_make_extinguished_sed_grid {F Obj}.
Arguments E_FileSEDGrid {F Obj}.
Arguments E_Observations_init {F Obj}.
Arguments E_Vega_getFlux {F Obj}.
Arguments E_pick_models {F Obj}.
Arguments E_pick_positions {F Obj}.
Arguments E_make_toothpick_noise_model {F Obj}.
Arguments E_get_noisemodelcat {F Obj}.
Arguments E_trim_models {F Obj}.
Arguments E_time_clock {F Obj}.
Arguments E_summary_table_memory {F Obj}.
Arguments E_print {F Obj}.
Arguments E_print_help {F Obj}.

(** The library, the file system and the clock: what a call returns, given
    the calls made before it. *)
Record World (F Obj : Type) : Type := mkWorld {
  w_none : list (Event F Obj) → Event F Obj → result unit;
  w_obj : list (Event F Obj) → Event F Obj → result Obj;
  w_named : list (Event F Obj) → Event F Obj → result (string * Obj);
  w_float : list (Event F Obj) → Event F Obj → result F;
  w_floats : list (Event F Obj) → Event F Obj → result (list F);
  w_table : list (Event F Obj) → Event F Obj → result (Table F);
}.
Arguments mkWorld {F Obj}.
Arguments w_none {F Obj} _.
Arguments w_obj {F Obj} _.
Arguments w_named {F Obj} _.
Arguments w_float {F Obj} _.
Arguments w_floats {F Obj} _.
Arguments w_table {F Obj} _.

(** The sections of the script: the verification step, the body of one of
    the five [if args.<stage>:] statements, the help fallback. *)
Inductive stage : Type := physicsmodel | ast | observationmodel | trim | fit.

Global Instance stage_eq_dec : EqDecision stage.
Proof. solve_decision. Defined.

Inductive section_of_script : Type :=
  | Verify
  | Stage (st : stage)
  | Help.

Global Instance section_of_script_eq_dec : EqDecision section_of_script.
Proof. solve_decision. Defined.

(** The options of the command line. *)
Inductive flag : Type :=
  | opt_physicsmodel | opt_ast | opt_observationmodel | opt_trim | opt_fit | opt_resume.

Global Instance flag_eq_dec : EqDecision flag.
Proof. solve_decision. Defined.

(** [args = parser.parse_args()] *)
Record Namespace : Type := mkArgs {
  args_physicsmodel : bool;
  args_ast : bool;
  args_observationmodel : bool;
  args_trim : bool;
  args_fit : bool;
  args_resume : bool;
}.

(** Every option is [store_true]: it is set when it occurs, however often and
    wherever, on the command line. *)
Definition parse_args (argv : list flag) : Namespace := {|
  args_physicsmodel := bool_decide (opt_physicsmodel ∈ argv);
  args_ast := bool_decide (opt_ast ∈ argv);
  args_observationmodel := bool_decide (opt_observationmodel ∈ argv);
  args_trim := bool_decide (opt_trim ∈ argv);
  args_fit := bool_decide (opt_fit ∈ argv);
  args_resume := bool_decide (opt_resume ∈ argv);
|}.

(** [any(vars(args).values())] *)
Definition any_args (args : Namespace) : bool :=
  args_physicsmodel args || args_ast args || args_observationmodel args ||
  args_trim args || args_fit args || args_resume args.


(** ** Python values for the one name lookup that matters

    Inside [getFlux] the name [units] is the parameter, not the module
    [astropy.units] imported at the top of the file. *)
Inductive pyval : Type :=
  | PyBool (b : bool)
  | PyModule (name : string)
  | PyUnit (name : string).

Definition py_getattr (o : pyval) (attr : string) : result pyval :=
  match o with
  | PyModule "astropy.units" => Ok (PyUnit attr)
  | PyModule _ => Raise (AttributeError ("module has no attribute " +:+ attr))
  | PyBool _ => Raise (AttributeError ("'bool' object has no attribute '" +:+ attr +:+ "'"))
  | PyUnit _ => Raise (AttributeError ("unit has no attribute " +:+ attr))
  end.

(** A name is looked up in the local scope first, then in the module's. *)
Definition py_name (locals globals : gmap string pyval) (name : string) : result pyval :=
  match locals !! name with
  | Some v => Ok v
  | None =>
      match globals !! name with
      | Some v => Ok v
      | None => Raise (NameError name)
      end
  end.

(** The names bound at module level in [datamodel.py] by its imports. *)
Definition datamodel_globals : gmap string pyval :=
  {[ "units" := PyModule "astropy.units" ]}.

(** The value [getFlux] returns: the bare array, or the array with a unit. *)
Inductive flux_value (F : Type) : Type :=
  | Flux (flux : list F)
  | FluxWithUnit (flux : list F) (u : string).
Arguments Flux {F} flux.
Arguments FluxWithUnit {F} flux u.

Section program.
Context {F : Type} `{NumOps F} {Obj : Type}.
Local Abbreviation event := (Event F Obj).

(** *** Calls and their trace

    A computation receives the calls made so far and returns the calls it
    makes and its outcome. *)
Definition M (A : Type) : Type := list event → list event * result A.

#[global] Instance M_ret : MRet M := λ A a _, ([], Ok a).
#[global] Instance M_bind : MBind M := λ A B f m h,
  match m h with
  | (t1, Ok a) => let '(t2, r) := f a (h ++ t1) in (t1 ++ t2, r)
  | (t1, Raise e) => (t1, Raise e)
  end.

Definition lift {A} (r : result A) : M A := λ _, ([], r).
Definition call {A} (respond : list event → event → result A) (e : event) : M A :=
  λ h, ([e], respond h e).
Definition emit (e : event) : M unit := λ _, ([e], Ok tt).

Variable W : World F Obj.
Variable dm : datamodel.t F Obj.

(** *** datamodel.py: class GenFluxCatalog *)

(** [GenFluxCatalog.setFilters(self, filters)]: the Vega reference fluxes are
    looked up here, once, and stored. *)
Definition setFilters (self : GenFluxCatalog.t F) (filters : list string)
    : M (GenFluxCatalog.t F) :=
  let self := GenFluxCatalog.set_filters self filters in
  vega_flux ← call (w_floats W) (E_Vega_getFlux filters);
  mret (GenFluxCatalog.set_vega_flux self vega_flux).

Definition setBadValue (self : GenFluxCatalog.t F) (v : Z * Z) : GenFluxCatalog.t F :=
  GenFluxCatalog.set_badvalue self v.

(** [GenFluxCatalog.__init__(self, inputFile, filters)]; the attributes that
    [Observations.__init__] does not assign start empty. *)
Definition GenFluxCatalog_init (inputFile : string) (filters : list string)
    : M (GenFluxCatalog.t F) :=
  let desc := "GENERIC star: " +:+ inputFile in
  data ← call (w_table W) (E_Observations_init inputFile desc);
  self ← setFilters (GenFluxCatalog.mk inputFile desc data [] [] None) filters;
  let self := setBadValue self (6, -40)%Z in
  data ← lift (for_each
            (λ data '(ik, k),
               colname ← py_index (datamodel.obs_colnames dm) (Z.of_nat ik);
               Ok (set_alias data k colname))
            (GenFluxCatalog.data self) (enumerate filters));
  mret (GenFluxCatalog.set_data self data).

(** The local scope of a call of [getFlux]: its parameter [units]. *)
Definition getFlux_locals (units : bool) : gmap string pyval :=
  {[ "units" := PyBool units ]}.

(** [GenFluxCatalog.getFlux(self, num, units=False)] *)
Definition getFlux (self : GenFluxCatalog.t F) (num : Z) (units : bool)
    : result (flux_value F) :=
  d ← table_row (GenFluxCatalog.data self) num;
  vals ← mapM (λ ok, row_field (GenFluxCatalog.data self) d
                       (resolve_alias (GenFluxCatalog.data self) ok))
         (GenFluxCatalog.filters self);
  flux ← np_mul vals (GenFluxCatalog.vega_flux self);
  if units then
    let name := py_name (getFlux_locals units) datamodel_globals in
    erg ← name "units" ≫= λ u, py_getattr u "erg";
    s ← name "units" ≫= λ u, py_getattr u "s";
    cm ← name "units" ≫= λ u, py_getattr u "cm";
    cm' ← name "units" ≫= λ u, py_getattr u "cm";
    angstrom ← name "units" ≫= λ u, py_getattr u "angstrom";
    Ok (FluxWithUnit flux "erg / (s cm cm Angstrom)")
  else Ok (Flux flux).

(** [get_obscat(obsfile, filters)] *)
Definition get_obscat (obsfile : string) (filters : list string) : M (GenFluxCatalog.t F) :=
  GenFluxCatalog_init obsfile filters.

(** *** run_beast.py *)

(** Lines 77-84: the distances in pc. *)
Definition physicsmodel_distances (distances : list (Quantity F))
    : result (distances_arg F) :=
  d0 ← py_index distances 0%Z;
  let distance_unit := unit_of d0 in
  if decide (distance_unit = u_mag) then
    let dmods := map value distances in
    Ok (QuantityArray
          (map (fpow (flit 10 0))
             (map (λ x, fadd x (flit 1 0)) (map (λ x, fdiv x (flit 5 0)) dmods)))
          u_pc)
  else if decide (distance_unit = u_pc) then
    Ok (QuantityList distances)
  else Raise (ValueError "distance modulus does not have mag or parsec units").

(** Lines 63-122: [if args.physicsmodel:] *)
Definition physicsmodel_body : M unit :=
  pdir ← call (w_obj W) (E_create_project_dir (datamodel.project dm));
  logtmin ← lift (py_index (datamodel.logt dm) 0%Z);
  logtmax ← lift (py_index (datamodel.logt dm) 1%Z);
  dlogt ← lift (py_index (datamodel.logt dm) 2%Z);
  '(iso_fname, oiso) ← call (w_named W)
      (E_make_iso_table (datamodel.project dm) (datamodel.oiso dm)
         logtmin logtmax dlogt (datamodel.z dm));
  distances ← lift (physicsmodel_distances (datamodel.distances dm));
  let extra_kwargs := datamodel.add_spectral_properties_kwargs dm in
  '(spec_fname, g_spec) ← call (w_named W)
      (E_make_spectral_grid (datamodel.project dm) oiso (datamodel.osl dm)
         distances extra_kwargs);
  '(pspec_fname, g_pspec) ← call (w_named W)
      (E_add_stellar_priors (datamodel.project dm) g_spec);
  g_pdist_pspec ← call (w_obj W)
      (E_make_grid_with_distances (datamodel.project dm) g_pspec distances);
  '(seds_fname, g_seds) ← call (w_named W)
      (E_make_extinguished_sed_grid (datamodel.project dm) g_pdist_pspec
         (datamodel.filters dm) (datamodel.extLaw dm)
         (datamodel.avs dm) (datamodel.rvs dm) (datamodel.fAs dm)
         (datamodel.rv_prior_model dm) (datamodel.av_prior_model dm)
         (datamodel.fA_prior_model dm) extra_kwargs);
  mret tt.

(** The column of Vega magnitudes that goes with a filter of the catalog. *)
Definition sfiltername (obsdata : GenFluxCatalog.t F) (filtername : string) : string :=
  Str.replace "RATE" "VEGA"
    (Str.replace "rate" "vega" (resolve_alias (GenFluxCatalog.data obsdata) filtername)).

(** Lines 140-146: the loop over the filters. *)
Definition min_mags (obsdata : GenFluxCatalog.t F) : result (list F) :=
  for_each
    (λ min_mags '(k, filtername),
       let sfiltername := sfiltername obsdata filtername in
       column ← table_column (GenFluxCatalog.data obsdata) sfiltername;
       let keep := np_where_lt column (flit 99 0) in
       kept ← table_take (GenFluxCatalog.data obsdata) keep;
       mags ← table_column kept sfiltername;
       percentile ← np_percentile mags (flit 90 0);
       py_setitem min_mags k percentile)
    (np_zeros (length (datamodel.filters dm)))
    (enumerate (GenFluxCatalog.filters obsdata)).

(** Lines 133-149: the magnitude cuts handed to [pick_models]. *)
Definition mag_cuts : M (list F) :=
  let mag_cuts := datamodel.ast_maglimit dm in
  if decide (length mag_cuts = 1) then
    let tmp_cuts := mag_cuts in
    obsdata ← get_obscat (datamodel.obsfile dm) (datamodel.filters dm);
    min_mags ← lift (min_mags obsdata);
    lift (np_add min_mags tmp_cuts)
  else mret mag_cuts.

(** Lines 124-162: [if args.ast:] *)
Definition ast_body : M unit :=
  let modelsedgridfile := modelsedgridfile (datamodel.project dm) in
  modelsedgrid ← call (w_obj W) (E_FileSEDGrid modelsedgridfile);
  let N_models := datamodel.ast_models_selected_per_age dm in
  let Nfilters := datamodel.ast_bands_above_maglimit dm in
  let Nrealize := datamodel.ast_realization_per_model dm in
  mag_cuts ← mag_cuts;
  call (w_none W) (E_pick_models modelsedgrid mag_cuts Nfilters N_models Nrealize);;
  if datamodel.ast_with_positions dm then
    let separation := datamodel.ast_pixel_distribution dm in
    let filename := inputASTfile (datamodel.project dm) in
    match datamodel.ast_reference_image dm with
    | Some image => call (w_none W) (E_pick_positions filename separation (Some image))
    | None => call (w_none W) (E_pick_positions filename separation None)
    end
  else mret tt.

(** Lines 164-177: [if args.observationmodel:] *)
Definition observationmodel_body : M unit :=
  emit (E_print [PStr "Generating noise model from ASTs and absflux A matrix"]);;
  let modelsedgridfile := modelsedgridfile (datamodel.project dm) in
  modelsedgrid ← call (w_obj W) (E_FileSEDGrid modelsedgridfile);
  call (w_none W)
    (E_make_toothpick_noise_model (datamodel.noisefile dm) (datamodel.astfile dm)
       modelsedgrid (datamodel.absflux_a_matrix dm)).

(** Lines 179-199: [if args.trim:] *)
Definition trim_body : M unit :=
  emit (E_print [PStr "Trimming the model and noise grids"]);;
  obsdata ← get_obscat (datamodel.obsfile dm) (datamodel.filters dm);
  let modelsedgridfile := modelsedgridfile (datamodel.project dm) in
  modelsedgrid ← call (w_obj W) (E_FileSEDGrid modelsedgridfile);
  noisemodel_vals ← call (w_obj W) (E_get_noisemodelcat (datamodel.noisefile dm));
  let sed_trimname := sed_trimname (datamodel.project dm) in
  let noisemodel_trimname := noisemodel_trimname (datamodel.project dm) in
  call (w_none W)
    (E_trim_models modelsedgrid noisemodel_vals obsdata
       sed_trimname noisemodel_trimname (flit 3 0)).

(** Lines 201-232: [if args.fit:] *)
Definition fit_body (resume : bool) : M unit :=
  start_time ← call (w_float W) E_time_clock;
  let modelsedgrid := fit_modelsedgrid (datamodel.project dm) in
  let noisemodelfile := noisemodelfile (datamodel.project dm) in
  noisemodel_vals ← call (w_obj W) (E_get_noisemodelcat noisemodelfile);
  obsdata ← get_obscat (datamodel.obsfile dm) (datamodel.filters dm);
  emit (E_print [PStr (datamodel.project dm)]);;
  let statsfile := statsfile (datamodel.project dm) in
  let pdf1dfile := pdf1dfile (datamodel.project dm) in
  let lnpfile := lnpfile (datamodel.project dm) in
  call (w_none W)
    (E_summary_table_memory obsdata noisemodel_vals modelsedgrid resume
       (flit (-10) 0) 100%Z 60%Z statsfile pdf1dfile lnpfile);;
  new_time ← call (w_float W) E_time_clock;
  emit (E_print [PStr "time to fit: ";
                 PNum (fdiv (fsub new_time start_time) (flit 60 0));
                 PStr " min"]).

(** *** The script: its sections in order

    A run is the list of the sections entered, each with the calls it made. *)
Definition block : Type := section_of_script * list event.
Definition calls_of (blocks : list block) : list event := concat (map snd blocks).
Definition Script (A : Type) : Type := list block → list block * result A.

#[global] Instance Script_ret : MRet Script := λ A a bs, (bs, Ok a).
#[global] Instance Script_bind : MBind Script := λ A B f m bs,
  match m bs with
  | (bs', Ok a) => f a bs'
  | (bs', Raise e) => (bs', Raise e)
  end.

Definition enter (sec : section_of_script) (body : M unit) : Script unit :=
  λ bs, let '(calls, r) := body (calls_of bs) in (bs ++ [(sec, calls)], r).

Definition when (b : bool) (body : Script unit) : Script unit :=
  if b then body else mret tt.

Definition script (args : Namespace) : Script unit :=
  enter Verify (call (w_none W) E_verify_input_format);;
  when (args_physicsmodel args) (enter (Stage physicsmodel) physicsmodel_body);;
  when (args_ast args) (enter (Stage ast) ast_body);;
  when (args_observationmodel args) (enter (Stage observationmodel) observationmodel_body);;
  when (args_trim args) (enter (Stage trim) trim_body);;
  when (args_fit args) (enter (Stage fit) (fit_body (args_resume args)));;
  when (negb (any_args args)) (enter Help (emit E_print_help)).

(** [python run_beast.py <argv>] *)
Definition run_beast (argv : list flag) : list block * result unit :=
  script (parse_args argv) [].
End program.

(** ** Reading a run *)
Section observers.
Context {F Obj : Type}.
Local Abbreviation event := (Event F Obj).

(** The calls that build a model grid. *)
Definition builds_grid (e : event) : bool :=
  match e with
  | E_make_spectral_grid _ _ _ _ _ | E_add_stellar_priors _ _
  | E_make_grid_with_distances _ _ _
  | E_make_extinguished_sed_grid _ _ _ _ _ _ _ _ _ _ _ => true
  | _ => false
  end.

(** The [distances] argument of a call that takes one. *)
Definition distances_passed (e : event) : option (distances_arg F) :=
  match e with
  | E_make_spectral_grid _ _ _ distances _ => Some distances
  | E_make_grid_with_distances _ _ distances => Some distances
  | _ => None
  end.

(** Modelled from the spec: which collaborators persist an artifact (a
    directory, a grid, a list, a noise model, fit outputs). Opening a
    grid, a catalog, the Vega source or a noise model, verifying the
    configuration, reading the clock and printing write no file. *)
Definition writes_files (e : event) : bool :=
  match e with
  | E_create_project_dir _ | E_make_iso_table _ _ _ _ _ _
  | E_make_spectral_grid _ _ _ _ _ | E_add_stellar_priors _ _
  | E_make_grid_with_distances _ _ _
  | E_make_extinguished_sed_grid _ _ _ _ _ _ _ _ _ _ _
  | E_pick_models _ _ _ _ _ | E_pick_positions _ _ _
  | E_make_toothpick_noise_model _ _ _ _
  | E_trim_models _ _ _ _ _ _
  | E_summary_table_memory _ _ _ _ _ _ _ _ _ _ => true
  | E_verify_input_format | E_FileSEDGrid _ | E_Observations_init _ _
  | E_Vega_getFlux _ | E_get_noisemodelcat _ | E_time_clock
  | E_print _ | E_print_help => false
  end.

(** What the script itself prints. *)
Definition prints (e : event) : bool :=
  match e with
  | E_print _ | E_print_help => true
  | _ => false
  end.

(** The two output names handed to [trim_models]. *)
Definition trim_outputs (e : event) : option (string * string) :=
  match e with
  | E_trim_models _ _ _ sed_trimname noisemodel_trimname _ =>
      Some (sed_trimname, noisemodel_trimname)
  | _ => None
  end.




(** The stages entered in a run, in the order of entry. *)
Definition stages_entered (blocks : list (section_of_script * list event)) : list stage :=
  omap (λ b, match fst b with Stage st => Some st | _ => None end) blocks.

End observers.


(** ** An example project, on exact integers *)
Definition example_table : Table Z :=
  mkTable ["F475W_RATE"; "F475W_VEGA"; "F814W_RATE"; "F814W_VEGA"]
    [[10; 25; 20; 28]; [11; 99; 21; 23]; [12; 31; 22; 99]; [13; 26; 23; 22]]%Z ∅.

(** A library in which every call returns. *)
Definition example_world : World Z string := {|
  w_none := λ _ _, Ok tt;
  w_obj := λ _ _, Ok "obj";
  w_named := λ _ _, Ok ("fname", "obj");
  w_float := λ h _, Ok (Z.of_nat (length h));
  w_floats := λ _ e, match e with
                     | E_Vega_getFlux fs => Ok (map (λ _, 2%Z) fs)
                     | _ => Ok []
                     end;
  w_table := λ _ _, Ok example_table;
|}.

Definition example_datamodel (project : string) (distances : list (Quantity Z))
    : datamodel.t Z string := {|
  datamodel.project := project;
  datamodel.filters := ["HST_ACS_WFC_F475W"; "HST_ACS_WFC_F814W"];
  datamodel.basefilters := ["F475W"; "F814W"];
  datamodel.obsfile := "data/b15_4band_det_27_A.fits";
  datamodel.ast_models_selected_per_age := 70;
  datamodel.ast_bands_above_maglimit := 3;
  datamodel.ast_realization_per_model := 20;
  datamodel.ast_maglimit := [1%Z];
  datamodel.ast_with_positions := true;
  datamodel.ast_pixel_distribution := 10%Z;
  datamodel.ast_reference_image := None;
  datamodel.astfile := "data/fake_stars_b15_27_all.hd5";
  datamodel.noisefile := project +:+ "/" +:+ project +:+ "_noisemodel.hd5";
  datamodel.absflux_a_matrix := "absflux_a_matrix";
  datamodel.distances := distances;
  datamodel.logt := [6; 10; 1]%Z;
  datamodel.z := "z";
  datamodel.oiso := "PadovaWeb";
  datamodel.osl := "Tlusty+Kurucz";
  datamodel.extLaw := "Gordon16_RvFALaw";
  datamodel.avs := [0; 10; 1]%Z;
  datamodel.av_prior_model := "flat";
  datamodel.rvs := [2; 6; 1]%Z;
  datamodel.rv_prior_model := "flat";
  datamodel.fAs := [0; 1; 1]%Z;
  datamodel.fA_prior_model := "flat";
  datamodel.add_spectral_properties_kwargs := Some "filternames";
|}.

Definition example_mag : datamodel.t Z string :=
  example_datamodel "beast_example_phat" [mkQuantity 20%Z u_mag; mkQuantity 25%Z u_mag].
Definition example_kpc : datamodel.t Z string :=
  example_datamodel "beast_example_phat" [mkQuantity 50%Z u_kpc].

(** ** Further names, observers and examples *)

(** datamodel.py, line 147:
    [noisefile = project + '/' + project + '_noisemodel.hd5'] *)
Definition default_noisefile (project : string) : string :=
  ((project +:+ "/") +:+ project) +:+ "_noisemodel.hd5".

Section more_observers.
Context {F Obj : Type}.
Local Abbreviation event := (Event F Obj).

(** The calls that open the observed catalog. *)
Definition opens_catalog (e : event) : bool :=
  match e with
  | E_Observations_init _ _ | E_Vega_getFlux _ => true
  | _ => false
  end.

(** The arguments of a call of [pick_positions]. *)
Definition positions_call (e : event) : option (string * F * option string) :=
  match e with
  | E_pick_positions filename separation refimage => Some (filename, separation, refimage)
  | _ => None
  end.

Definition is_verify_input_format (e : event) : bool :=
  match e with E_verify_input_format => true | _ => false end.

Definition is_FileSEDGrid (e : event) : bool :=
  match e with E_FileSEDGrid _ => true | _ => false end.

Definition is_get_noisemodelcat (e : event) : bool :=
  match e with E_get_noisemodelcat _ => true | _ => false end.

Definition is_summary_table_memory (e : event) : bool :=
  match e with E_summary_table_memory _ _ _ _ _ _ _ _ _ _ => true | _ => false end.
End more_observers.

(** The example library with some calls failing. *)
Definition example_world_without (missing : Event Z string → bool) : World Z string := {|
  w_none := λ h e, if missing e then Raise (LibraryError "missing")
                   else w_none example_world h e;
  w_obj := λ h e, if missing e then Raise (LibraryError "missing")
                  else w_obj example_world h e;
  w_named := λ h e, if missing e then Raise (LibraryError "missing")
                    else w_named example_world h e;
  w_float := λ h e, if missing e then Raise (LibraryError "missing")
                    else w_float example_world h e;
  w_floats := λ h e, if missing e then Raise (LibraryError "missing")
                     else w_floats example_world h e;
  w_table := λ h e, if missing e then Raise (LibraryError "missing")
                    else w_table example_world h e;
|}.

(** The example library over another catalog. *)
Definition example_world_with (catalog : Table Z) : World Z string := {|
  w_none := w_none example_world;
  w_obj := w_obj example_world;
  w_named := w_named example_world;
  w_float := w_float example_world;
  w_floats := w_floats example_world;
  w_table := λ _ _, Ok catalog;
|}.

(** The example project with other base filters and magnitude cuts. *)
Definition example_variant (basefilters : list string) (ast_maglimit : list Z)
    : datamodel.t Z string :=
  datamodel.mk
    (datamodel.project example_mag) (datamodel.filters example_mag) basefilters
    (datamodel.obsfile example_mag)
    (datamodel.ast_models_selected_per_age example_mag)
    (datamodel.ast_bands_above_maglimit example_mag)
    (datamodel.ast_realization_per_model example_mag)
    ast_maglimit
    (datamodel.ast_with_positions example_mag)
    (datamodel.ast_pixel_distribution example_mag)
    (datamodel.ast_reference_image example_mag)
    (datamodel.astfile example_mag) (datamodel.noisefile example_mag)
    (datamodel.absflux_a_matrix example_mag) (datamodel.distances example_mag)
    (datamodel.logt example_mag) (datamodel.z example_mag)
    (datamodel.oiso example_mag) (datamodel.osl example_mag)
    (datamodel.extLaw example_mag)
    (datamodel.avs example_mag) (datamodel.av_prior_model example_mag)
    (datamodel.rvs example_mag) (datamodel.rv_prior_model example_mag)
    (datamodel.fAs example_mag) (datamodel.fA_prior_model example_mag)
    (datamodel.add_spectral_properties_kwargs example_mag).

(** * Properties *)

(** ** The definitions on closed inputs *)

Example replace_abc : Str.replace "" "-" "abc" = "-a-b-c-".
Proof. reflexivity. Qed.

Example replace_overlap : Str.replace "aa" "b" "aaaaa" = "bba".
Proof. reflexivity. Qed.

Example replace_seds :
  Str.replace "_seds" "_seds_trim" "p/p_seds.grid.hd5" = "p/p_seds_trim.grid.hd5".
Proof. reflexivity. Qed.

Example obs_colnames_example :
  datamodel.obs_colnames example_mag = ["F475W_RATE"; "F814W_RATE"].
Proof. reflexivity. Qed.

(** ** Facts about [string] *)
Section StringFacts.
Implicit Types s t u v old new : string.

Lemma sapp_cons c s t : String c s +:+ t = String c (s +:+ t).
Proof. reflexivity. Qed.

Lemma sapp_nil_l s : "" +:+ s = s.
Proof. reflexivity. Qed.

Lemma sapp_assoc s t u : (s +:+ t) +:+ u = s +:+ t +:+ u.
Proof. induction s as [|c s IH]; [done|]. by rewrite !sapp_cons, IH. Qed.

Lemma slength_app s t : String.length (s +:+ t) = String.length s + String.length t.
Proof. induction s as [|c s IH]; [done|]. rewrite sapp_cons. simpl. by rewrite IH. Qed.

Lemma prefix_cons a old b s :
  String.prefix (String a old) (String b s) =
  if ascii_dec a b then String.prefix old s else false.
Proof. reflexivity. Qed.

Lemma prefix_nil_l s : String.prefix "" s = true.
Proof. by destruct s. Qed.

Lemma prefix_nil_r a old : String.prefix (String a old) "" = false.
Proof. reflexivity. Qed.

Lemma prefix_app old t : String.prefix old (old +:+ t) = true.
Proof.
  induction old as [|c old IH]; [by destruct t|].
  rewrite sapp_cons. simpl. destruct (ascii_dec c c); [done|congruence].
Qed.

Lemma prefix_inv old s : String.prefix old s = true → ∃ t, s = old +:+ t.
Proof.
  revert s. induction old as [|c old IH]; intros s H.
  - by exists s.
  - destruct s as [|c' s]; [done|]. simpl in H.
    destruct (ascii_dec c c') as [->|]; [|done].
    destruct (IH _ H) as [t ->]. by exists t.
Qed.
End StringFacts.

(** ** The scan of [str.replace] *)
Section ReplaceFacts.
Implicit Types s t u v old new : string.

Lemma replace_from_skip old new u t :
  Str.replace_from old new (String.length u) (u +:+ t) = Str.replace_from old new 0 t.
Proof. induction u as [|c u IH]; [done|]. rewrite sapp_cons. simpl. exact IH. Qed.

Lemma replace_nil old new : old ≠ "" → Str.replace old new "" = "".
Proof. by destruct old. Qed.

Lemma replace_hit old new t :
  old ≠ "" → Str.replace old new (old +:+ t) = new +:+ Str.replace old new t.
Proof.
  destruct old as [|h old]; [done|]. intros _. unfold Str.replace.
  pose proof (prefix_app (String h old) t) as Hp.
  rewrite sapp_cons in *. cbn [Str.replace_from]. rewrite Hp.
  cbn [String.length]. rewrite Nat.sub_1_r. cbn [Nat.pred].
  by rewrite replace_from_skip.
Qed.

Lemma replace_miss old new c s :
  String.prefix old (String c s) = false →
  Str.replace old new (String c s) = String c (Str.replace old new s).
Proof.
  destruct old as [|h old]; [done|]. intros Hp. unfold Str.replace.
  cbn [Str.replace_from]. by rewrite Hp.
Qed.

(** Induction along the scan: the string is empty, starts with a match, or
    starts with a character that is copied. *)
Lemma scan_ind old (P : string → Prop) :
  old ≠ "" →
  P "" →
  (∀ t, P t → P (old +:+ t)) →
  (∀ c s, String.prefix old (String c s) = false → P s → P (String c s)) →
  ∀ s, P s.
Proof.
  intros Hne H0 Hhit Hmiss s.
  remember (String.length s) as n eqn:Hn. revert s Hn.
  induction n as [n IH] using lt_wf_ind. intros s ->.
  destruct s as [|c s]; [done|].
  destruct (String.prefix old (String c s)) eqn:Hp.
  - destruct (prefix_inv _ _ Hp) as [t Ht]. rewrite Ht. apply Hhit.
    apply (IH (String.length t)); [|done].
    rewrite Ht, slength_app. destruct old; [done|]. simpl. lia.
  - apply Hmiss; [done|]. apply (IH (String.length s)); [simpl; lia|done].
Qed.

(** A string without a match is left as it is. *)
Lemma replace_free old new s :
  old ≠ "" → Str.contains old s = false → Str.replace old new s = s.
Proof.
  intros Hne. induction s as [|c s IH]; intros Hc.
  - by apply replace_nil.
  - simpl in Hc. apply orb_false_iff in Hc as [Hp Hc].
    rewrite replace_miss by done. by rewrite IH.
Qed.

Lemma straddle_free_suffix old u s t :
  straddle_free old (u +:+ s) t → straddle_free old s t.
Proof.
  intros H u' c v ->. apply (H (u +:+ u')). by rewrite sapp_assoc.
Qed.

(** [str.replace] distributes over a concatenation that no match straddles. *)
Lemma replace_app old new s t :
  old ≠ "" → straddle_free old s t →
  Str.replace old new (s +:+ t) = Str.replace old new s +:+ Str.replace old new t.
Proof.
  intros Hne. revert s. apply (scan_ind old (λ s, straddle_free old s t → _) Hne).
  - intros _. by rewrite replace_nil.
  - intros s IH Hs. rewrite sapp_assoc, !replace_hit, sapp_assoc by done.
    f_equal. apply IH. by eapply straddle_free_suffix.
  - intros c s Hp IH Hs. rewrite sapp_cons.
    rewrite !replace_miss; [|done|].
    + rewrite sapp_cons. f_equal. apply IH.
      apply (straddle_free_suffix old (String c "")). exact Hs.
    + rewrite <- sapp_cons, (Hs "" c s); done.
Qed.
End ReplaceFacts.

Section SedsFacts.
Implicit Types s t u v new project : string.

(** A prefix test with a word that avoids the first character of [old] does
    not see the replacement, when [new] starts with that character too. *)
Lemma prefix_replace_other h old' new' w s :
  has_char h w = false →
  String.prefix w (Str.replace (String h old') (String h new') s) = String.prefix w s.
Proof.
  revert s. induction w as [|a w IH]; intros s Hw.
  - by destruct s, (Str.replace _ _ _).
  - simpl in Hw. destruct (ascii_dec h a) as [|Hne]; [done|].
    destruct s as [|c s]; [done|].
    destruct (String.prefix (String h old') (String c s)) eqn:Hp.
    + destruct (prefix_inv _ _ Hp) as [t Ht]. rewrite Ht, replace_hit by done.
      rewrite !sapp_cons. simpl. destruct (ascii_dec a h); [congruence|done].
    + rewrite replace_miss by done. simpl.
      destruct (ascii_dec a c); [|done]. by apply IH.
Qed.

Lemma seds_straddle_free s c0 t :
  has_char c0 "seds" = false → straddle_free "_seds" s (String c0 t).
Proof.
  intros Hc u c v _. simpl in Hc. repeat destruct (ascii_dec c0 _); try done.
  destruct v as [|c1 [|c2 [|c3 [|c4 v]]]];
    rewrite ?sapp_cons, ?sapp_nil_l, ?prefix_cons, ?prefix_nil_l, ?prefix_nil_r;
    repeat (destruct (ascii_dec _ _); try done); congruence.
Qed.

(** The scan of the two file-name shapes of the driver. *)
Lemma replace_seds_path new project c0 suffix :
  has_char c0 "seds" = false →
  Str.replace "_seds" new (((project +:+ "/") +:+ project) +:+ String c0 suffix) =
  Str.replace "_seds" new project +:+ "/" +:+
  Str.replace "_seds" new project +:+ Str.replace "_seds" new (String c0 suffix).
Proof.
  intros Hc. rewrite !sapp_assoc.
  rewrite replace_app; [|done|by apply seds_straddle_free].
  f_equal. rewrite sapp_cons, sapp_nil_l, replace_miss by done. f_equal.
  rewrite replace_app; [done|done|by apply seds_straddle_free].
Qed.

(** Replacing [_seds] by [_seds_trim] and then [_seds] by [new] is replacing
    [_seds] by [new] followed by [_trim]. *)
Lemma replace_seds_twice new s :
  Str.replace "_seds" new (Str.replace "_seds" "_seds_trim" s) =
  Str.replace "_seds" (new +:+ "_trim") s.
Proof.
  revert s. apply (scan_ind "_seds"); [done|done|..].
  - intros t IH. rewrite !replace_hit by done.
    change "_seds_trim" with ("_seds" +:+ "_trim"). rewrite !sapp_assoc, replace_hit by done.
    f_equal. rewrite !sapp_cons, sapp_nil_l.
    repeat (rewrite replace_miss by done; f_equal). exact IH.
  - intros c s Hp IH.
    rewrite (replace_miss _ "_seds_trim" c s), (replace_miss _ (new +:+ "_trim") c s) by done.
    rewrite replace_miss; [by rewrite IH|].
    rewrite prefix_cons in *. destruct (ascii_dec _ c); [|done].
    by rewrite (prefix_replace_other "_" "seds" "seds_trim" "seds" s).
Qed.

Lemma replace_seds_length_le s :
  String.length (Str.replace "_seds" "_noisemodel" s) ≤
  String.length (Str.replace "_seds" "_noisemodel_trim" s).
Proof.
  revert s. apply (scan_ind "_seds"); [done|done|..].
  - intros t IH. rewrite !replace_hit, !slength_app by done. simpl in *. lia.
  - intros c s Hp IH. rewrite !replace_miss by done. simpl in *. lia.
Qed.

Lemma replace_seds_length_lt s :
  Str.contains "_seds" s = true →
  String.length (Str.replace "_seds" "_noisemodel" s) <
  String.length (Str.replace "_seds" "_noisemodel_trim" s).
Proof.
  induction s as [|c s IH]; [done|].
  destruct (String.prefix "_seds" (String c s)) eqn:Hp.
  - intros _. destruct (prefix_inv _ _ Hp) as [t ->].
    rewrite !replace_hit, !slength_app by done.
    pose proof (replace_seds_length_le t). simpl in *. lia.
  - intros Hc. rewrite !replace_miss by done.
    cbn [Str.contains] in Hc. rewrite Hp in Hc. simpl in *. apply IH in Hc. lia.
Qed.
End SedsFacts.

Lemma modelsedgridfile_scan new project :
  Str.replace "_seds" new (modelsedgridfile project) =
  Str.replace "_seds" new project +:+ "/" +:+
  Str.replace "_seds" new project +:+ new +:+ ".grid.hd5".
Proof.
  unfold modelsedgridfile. rewrite replace_seds_path by done.
  change "_seds.grid.hd5" with ("_seds" +:+ ".grid.hd5").
  rewrite replace_hit by done. reflexivity.
Qed.

Lemma noisemodel_trimname_eq project :
  noisemodel_trimname project =
  Str.replace "_seds" "_noisemodel_trim" (modelsedgridfile project).
Proof. unfold noisemodel_trimname, sed_trimname. apply replace_seds_twice. Qed.

Lemma noisemodelfile_scan project :
  noisemodelfile project =
  Str.replace "_seds" "_noisemodel" project +:+ "/" +:+
  Str.replace "_seds" "_noisemodel" project +:+ "_noisemodel_trim.grid.hd5".
Proof.
  unfold noisemodelfile, fit_modelsedgrid. rewrite replace_seds_path by done.
  change "_seds_trim.grid.hd5" with ("_seds" +:+ "_trim.grid.hd5").
  rewrite replace_hit by done. reflexivity.
Qed.

(** C3 (the code departs from it). The noise-model file name derived by the
    fit stage equals the trimmed-noise-model file name written by the trim
    stage exactly when the project name does not contain [_seds]: for a
    project name that contains [_seds] the fit stage looks for a file that
    the trim stage did not write. *)
Theorem fit_finds_trimmed_noisemodel project :
  noisemodelfile project = noisemodel_trimname project ↔
  Str.contains "_seds" project = false.
Proof.
  rewrite noisemodelfile_scan, noisemodel_trimname_eq, modelsedgridfile_scan.
  split.
  - intros Heq. destruct (Str.contains "_seds" project) eqn:Hc; [exfalso|done].
    apply replace_seds_length_lt in Hc.
    apply (f_equal String.length) in Heq. rewrite !slength_app in Heq. simpl in *. lia.
  - intros Hc. by rewrite !replace_free.
Qed.

(** ** Results, loops and arrays *)
Section result_facts.
Context {A B : Type}.
Implicit Types (f : A → result B) (l : list A) (k : list B).

Lemma bind_Ok_inv (m : result A) f b :
  m ≫= f = Ok b → ∃ a, m = Ok a ∧ f a = Ok b.
Proof. destruct m as [a|e]; [eauto|done]. Qed.

Lemma mapM_Ok_1 f l k : mapM f l = Ok k → Forall2 (λ x y, f x = Ok y) l k.
Proof.
  revert k. induction l as [|x l IH]; intros k Hk; simpl in Hk.
  - injection Hk as <-. constructor.
  - destruct (f x) as [y|] eqn:Hx; [|done]. simpl in Hk.
    destruct (mapM f l) as [k'|]; [|done]. injection Hk as <-.
    constructor; auto.
Qed.

Lemma mapM_Ok_2 f l k : Forall2 (λ x y, f x = Ok y) l k → mapM f l = Ok k.
Proof.
  induction 1 as [|x y l k Hx _ IH]; [done|]. simpl. rewrite Hx. simpl.
  by rewrite IH.
Qed.

Lemma mapM_Ok_fmap f (g : A → B) l : (∀ x, x ∈ l → f x = Ok (g x)) → mapM f l = Ok (g <$> l).
Proof.
  intros Hl. apply mapM_Ok_2. induction l as [|x l IH]; [constructor|].
  constructor; [apply Hl; left|]. apply IH. intros y Hy. apply Hl. by right.
Qed.

Lemma mapM_snoc f l x :
  mapM f (l ++ [x]) = mapM f l ≫= λ k, f x ≫= λ y, Ok (k ++ [y]).
Proof.
  induction l as [|x0 l IH]; simpl.
  - by destruct (f x).
  - destruct (f x0) as [y0|]; [simpl|done]. rewrite IH.
    destruct (mapM f l) as [k|]; [simpl|done]. by destruct (f x).
Qed.

(** A loop over a list stops with the error of the first element that
    raises. *)
Lemma mapM_Raise f l e :
  (∀ x, x ∈ l → f x = Raise e ∨ is_Ok (f x) = true) →
  (∃ x, x ∈ l ∧ f x = Raise e) →
  mapM f l = Raise e.
Proof.
  induction l as [|x0 l IH]; intros Hall (x & Hin & Hx).
  - by apply elem_of_nil in Hin.
  - simpl. destruct (Hall x0) as [->|Hok]; [left|done|].
    destruct (f x0) as [y0|] eqn:Hx0; [simpl|done].
    apply elem_of_cons in Hin as [->|Hin]; [congruence|].
    rewrite IH; [done| |by exists x].
    intros y Hy. apply Hall. by right.
Qed.

End result_facts.

Lemma py_index_nat {A} (l : list A) (i : nat) (x : A) :
  l !! i = Some x → py_index l (Z.of_nat i) = Ok x.
Proof.
  intros Hi. pose proof (lookup_lt_Some _ _ _ Hi) as Hlt. unfold py_index.
  destruct (Z.ltb_spec (Z.of_nat i) 0); [lia|].
  destruct (Z.leb_spec 0 (Z.of_nat i)); [|lia].
  destruct (Z.ltb_spec (Z.of_nat i) (Z.of_nat (length l))); [|lia].
  simpl. by rewrite Nat2Z.id, Hi.
Qed.

Lemma py_index_0 {A} (x : A) (l : list A) : py_index (x :: l) 0%Z = Ok x.
Proof. apply (py_index_nat _ 0). done. Qed.

Lemma enumerate_app {A} (l1 l2 : list A) :
  enumerate (l1 ++ l2) = enumerate l1 ++ imap (λ k x, (length l1 + k, x)) l2.
Proof. unfold enumerate. by rewrite imap_app. Qed.

Lemma enumerate_snoc {A} (l : list A) (x : A) :
  enumerate (l ++ [x]) = enumerate l ++ [(length l, x)].
Proof. rewrite enumerate_app. simpl. by rewrite Nat.add_0_r. Qed.

Lemma for_each_app {S A} (body : S → A → result S) (s : S) (l1 l2 : list A) :
  for_each body s (l1 ++ l2) = for_each body s l1 ≫= λ s', for_each body s' l2.
Proof.
  revert s. induction l1 as [|x l1 IH]; intros s; [done|]. simpl.
  destruct (body s x); simpl; [apply IH|done].
Qed.

(** A loop that computes a value per element and fills an array slot by slot
    leaves the computed values, and stops at the first value that raises. *)
Lemma for_each_setitem {A B} (body : list B → nat * A → result (list B))
    (val : A → result B) (init : list B) (l : list A) :
  length init = length l →
  (∀ acc k x, x ∈ l → body acc (k, x) = val x ≫= py_setitem acc k) →
  for_each body init (enumerate l) = mapM val l.
Proof.
  intros Hlen Hbody.
  assert (∀ n, n ≤ length l →
    for_each body init (enumerate (take n l))
    = mapM val (take n l) ≫= λ vs, Ok (vs ++ drop n init)) as Hn.
  { induction n as [|n IH]; intros Hn.
    - by rewrite take_0, drop_0.
    - destruct (lookup_lt_is_Some_2 l n) as [x Hx]; [lia|].
      rewrite (take_S_r _ _ _ Hx), enumerate_snoc, for_each_app, IH, mapM_snoc by lia.
      pose proof (mapM_Ok_1 val (take n l)) as Hvs.
      destruct (mapM val (take n l)) as [vs|]; [simpl|done].
      specialize (Hvs vs eq_refl). apply Forall2_length in Hvs.
      rewrite length_take_le in Hvs by lia.
      rewrite Hbody by (by eapply list_elem_of_lookup_2).
      destruct (val x) as [v|]; [simpl|done].
      rewrite length_take_le by lia.
      unfold py_setitem. rewrite decide_True.
      2:{ rewrite length_app, length_drop. lia. }
      f_equal.
      destruct (lookup_lt_is_Some_2 init n) as [y Hy]; [lia|].
      rewrite (drop_S _ _ _ Hy).
      rewrite insert_app_r_alt by lia.
      replace (n - length vs) with 0 by lia. simpl.
      by rewrite <- app_assoc. }
  specialize (Hn (length l) (le_n _)).
  rewrite firstn_all in Hn. rewrite Hn.
  destruct (mapM val l) as [vs|]; [simpl|done].
  by rewrite <- Hlen, drop_all, app_nil_r.
Qed.

Section numpy_facts.
Context {F : Type} `{NumOps F}.

Lemma np_broadcast_same (op : F → F → F) (a b : list F) :
  length a = length b → np_broadcast op a b = Ok (zip_with op a b).
Proof. intros Hl. unfold np_broadcast. by rewrite decide_True. Qed.

Lemma np_broadcast_scalar_r (op : F → F → F) (a : list F) (y : F) :
  np_broadcast op a [y] = Ok (map (λ x, op x y) a).
Proof.
  unfold np_broadcast. case_decide as Hl.
  - destruct a as [|x [|]]; done.
  - destruct a as [|x [|]]; done.
Qed.

(** The entries selected by [np.where(a < c)] are those that pass the test,
    in order; so are the entries of a parallel list. *)
Lemma np_where_lt_select {R} (a : list F) (c : F) (rs : list R) :
  length rs = length a →
  Forall2 (λ i r, rs !! i = Some r) (np_where_lt a c)
    (fst <$> List.filter (λ p, flt (snd p) c) (zip rs a)).
Proof.
  revert rs. induction a as [|x a IH] using rev_ind; intros rs Hlen.
  - destruct rs; [|done]. constructor.
  - destruct rs as [|r rs _] using rev_ind; [rewrite length_app in Hlen; simpl in *; lia|].
    rewrite !length_app in Hlen. simpl in Hlen.
    assert (length rs = length a) as Hl by lia.
    unfold np_where_lt. rewrite enumerate_snoc, omap_app.
    rewrite zip_with_app by done. rewrite List.filter_app, fmap_app.
    apply Forall2_app.
    + eapply Forall2_impl; [apply (IH rs Hl)|]. simpl. intros i r' Hi.
      by apply lookup_app_l_Some.
    + simpl. destruct (flt x c); simpl; [|constructor].
      constructor; [|constructor]. rewrite <- Hl. by rewrite list_lookup_middle.
Qed.

End numpy_facts.

Lemma py_index_nat_inv {A} (l : list A) (i : nat) (x : A) :
  py_index l (Z.of_nat i) = Ok x → l !! i = Some x.
Proof.
  unfold py_index. destruct (Z.ltb_spec (Z.of_nat i) 0); [lia|].
  destruct (_ && _)%bool; [|done]. rewrite Nat2Z.id.
  destruct (l !! i); [|done]. by intros [= ->].
Qed.

(** ** The table *)
Section table_facts.
Context {F : Type} `{NumOps F}.
Implicit Types (t : Table F).

Lemma table_column_Ok t name col :
  table_column t name = Ok col →
  Forall2 (λ row x, row_field t row name = Ok x) (rows t) col.
Proof.
  unfold table_column. destruct (list_find _ _) as [[i c]|]; [|done].
  apply mapM_Ok_1.
Qed.

Lemma mapM_filter_zip {R} (f : R → result F) (p : F → bool) (rs : list R) (a : list F) :
  Forall2 (λ r x, f r = Ok x) rs a →
  mapM f (fst <$> List.filter (λ q, p (snd q)) (zip rs a)) = Ok (List.filter p a).
Proof.
  induction 1 as [|r x rs a Hr _ IH]; [done|]. simpl in *.
  destruct (p x); simpl in *; unfold fmap in *; [rewrite Hr; simpl|]; by rewrite IH.
Qed.

(** [obsdata[keep][name]] with [keep, = np.where(obsdata[name] < c)] is the
    column [name] restricted to the entries below [c]. *)
Lemma table_take_where t name col c :
  table_column t name = Ok col →
  ∃ kept, table_take t (np_where_lt col c) = Ok kept ∧
          table_column kept name = Ok (List.filter (λ x, flt x c) col).
Proof.
  intros Hcol. pose proof (table_column_Ok _ _ _ Hcol) as Hrows.
  pose proof (Forall2_length _ _ _ Hrows) as Hlen.
  unfold table_take.
  rewrite (mapM_Ok_2 _ _ (fst <$> List.filter (λ q, flt (snd q) c) (zip (rows t) col))).
  2:{ eapply Forall2_impl; [by apply np_where_lt_select|].
      intros i r Hi. by apply py_index_nat. }
  simpl. eexists; split; [done|]. unfold table_column in *. simpl.
  destruct (list_find _ _) as [[i c']|]; [|done].
  apply (mapM_filter_zip _ (λ x, flt x c)). eapply Forall2_impl; [exact Hrows|].
  by intros row x <-.
Qed.

Lemma set_alias_loop_frame (cols : list string) t t' (fs : list string) :
  for_each (λ data '(ik, k),
              colname ← py_index cols (Z.of_nat ik); Ok (set_alias data k colname))
           t (enumerate fs) = Ok t' →
  colnames t' = colnames t ∧ rows t' = rows t ∧
  (NoDup fs → ∀ k f, fs !! k = Some f → aliases t' !! f = cols !! k).
Proof.
  revert t'. induction fs as [|f fs IH] using rev_ind; intros t' Ht'.
  - injection Ht' as <-. repeat split. intros _ k f Hk. done.
  - rewrite enumerate_snoc, for_each_app in Ht'.
    apply bind_Ok_inv in Ht' as (t1 & Ht1 & Ht'). simpl in Ht'.
    apply bind_Ok_inv in Ht' as (t2 & Ht2 & Ht').
    apply bind_Ok_inv in Ht2 as (c & Hc & Ht2).
    injection Ht2 as <-. injection Ht' as <-.
    destruct (IH _ Ht1) as (Hcn & Hrw & Hal). repeat split; [done..|].
    intros (Hnd & Hnin & _)%NoDup_app k g Hk.
    simpl. apply py_index_nat_inv in Hc.
    destruct (decide (k < length fs)) as [Hlt|Hge].
    + rewrite lookup_app_l in Hk by done.
      rewrite lookup_insert_ne.
      * by apply Hal.
      * intros <-. apply (Hnin f); [by eapply list_elem_of_lookup_2|left].
    + apply lookup_lt_Some in Hk as Hk'. rewrite length_app in Hk'. simpl in Hk'.
      assert (k = length fs) as -> by lia.
      rewrite list_lookup_middle in Hk by done. injection Hk as <-.
      by rewrite lookup_insert_eq.
Qed.
End table_facts.

(** ** The catalog wrapper *)
Section catalog_facts.
Context {F : Type} `{NumOps F} {Obj : Type}.
Variable W : World F Obj.
Variable dm : datamodel.t F Obj.

(** What a successful construction leaves in the object. *)
Lemma GenFluxCatalog_init_Ok inputFile fs h calls self :
  GenFluxCatalog_init W dm inputFile fs h = (calls, Ok self) →
  let opened := E_Observations_init inputFile ("GENERIC star: " +:+ inputFile) in
  calls = [opened; E_Vega_getFlux fs] ∧
  w_floats W (h ++ [opened]) (E_Vega_getFlux fs) = Ok (GenFluxCatalog.vega_flux self) ∧
  GenFluxCatalog.filters self = fs ∧
  GenFluxCatalog.badvalue self = Some (6, -40)%Z ∧
  (∃ tbl, w_table W h opened = Ok tbl ∧
          colnames (GenFluxCatalog.data self) = colnames tbl ∧ rows (GenFluxCatalog.data self) = rows tbl) ∧
  (NoDup fs → ∀ k f, fs !! k = Some f →
     aliases (GenFluxCatalog.data self) !! f = datamodel.obs_colnames dm !! k).
Proof.
  unfold GenFluxCatalog_init, setFilters, call, lift, mbind, M_bind, mret, M_ret.
  simpl. destruct (w_table W h _) as [tbl|] eqn:Htbl; [|done].
  destruct (w_floats W _ _) as [vega|] eqn:Hvega; [|done]. simpl.
  destruct (for_each _ _ _) as [t'|] eqn:Hloop; [|done]. simpl.
  intros [= <- <-]. simpl.
  destruct (set_alias_loop_frame _ _ _ _ Hloop) as (Hcn & Hrw & Hal).
  repeat split; try done. by exists tbl.
Qed.
End catalog_facts.

Section catalog_properties.
Context {F : Type} `{NumOps F} {Obj : Type}.
Variable W : World F Obj.
Variable dm : datamodel.t F Obj.

(** C6. For a catalog built by the constructor, with one Vega reference flux
    per filter, and a row index that selects a row holding the aliased column
    of every filter: the flux accessor without units returns a vector as long
    as the filter list, whose k-th entry is the row's value in the aliased
    column of the k-th filter times the k-th stored reference flux. The
    reference fluxes are the answer to the one Vega lookup of the
    construction, and for distinct filters the aliased column of the k-th
    filter is the k-th of [obs_colnames]. *)
Theorem getFlux_scaled_rates inputFile fs h calls self num d (rate : string → F) :
  GenFluxCatalog_init W dm inputFile fs h = (calls, Ok self) →
  length (GenFluxCatalog.vega_flux self) = length fs →
  table_row (GenFluxCatalog.data self) num = Ok d →
  (∀ f, f ∈ fs →
     row_field (GenFluxCatalog.data self) d (resolve_alias (GenFluxCatalog.data self) f) = Ok (rate f)) →
  let opened := E_Observations_init inputFile ("GENERIC star: " +:+ inputFile) in
  calls = [opened; E_Vega_getFlux fs] ∧
  w_floats W (h ++ [opened]) (E_Vega_getFlux fs) = Ok (GenFluxCatalog.vega_flux self) ∧
  (NoDup fs → ∀ k f, fs !! k = Some f →
     datamodel.obs_colnames dm !! k = Some (resolve_alias (GenFluxCatalog.data self) f)) ∧
  ∃ flux, getFlux self num false = Ok (Flux flux) ∧
          length flux = length fs ∧
          ∀ k f v, fs !! k = Some f → GenFluxCatalog.vega_flux self !! k = Some v →
                   flux !! k = Some (fmul (rate f) v).
Proof.
  intros Hinit Hvega Hrow Hrate opened.
  destruct (GenFluxCatalog_init_Ok W dm _ _ _ _ _ Hinit)
    as (Hcalls & Hw & Hfs & _ & _ & Hal).
  split; [done|]. split; [done|]. split.
  { intros Hnd k f Hk. specialize (Hal Hnd k f Hk). unfold resolve_alias.
    destruct (aliases (GenFluxCatalog.data self) !! f) as [c|] eqn:Hc; [done|].
    (* the loop assigned an alias to every filter *)
    exfalso. clear -Hinit Hk Hal Hc.
    revert Hinit.
    unfold GenFluxCatalog_init, setFilters, call, lift, mbind, M_bind, mret, M_ret.
    simpl. destruct (w_table W h _) as [tbl|]; [|done].
    destruct (w_floats W _ _) as [vega|]; [|done]. simpl.
    destruct (for_each _ _ _) as [t'|] eqn:Hloop; [|done]. simpl.
    intros _.
    apply lookup_lt_Some in Hk as Hlt.
    rewrite <- (take_drop_middle _ _ _ Hk), enumerate_app, for_each_app in Hloop.
    apply bind_Ok_inv in Hloop as (t1 & _ & Hloop). simpl in Hloop.
    apply bind_Ok_inv in Hloop as (t2 & Ht2 & _).
    apply bind_Ok_inv in Ht2 as (c & Hc' & _).
    rewrite length_take_le, Nat.add_0_r in Hc' by lia.
    apply py_index_nat_inv in Hc'. congruence. }
  unfold getFlux. rewrite Hrow. simpl. rewrite Hfs.
  rewrite (mapM_Ok_fmap _ rate) by done. simpl.
  unfold np_mul. rewrite np_broadcast_same by (by rewrite length_fmap). simpl.
  eexists; split; [done|]. split.
  - rewrite length_zip_with, length_fmap. lia.
  - intros k f v Hk Hv. rewrite lookup_zip_with, list_lookup_fmap, Hk, Hv. done.
Qed.

(** C4 (the code departs from it). With [units=True] the flux accessor never
    returns: where the call without units returns a flux vector, the call
    with units raises [AttributeError], because [units] names the boolean
    parameter and not the module of units; where the call without units
    raises, so does the call with units. *)
Theorem getFlux_units_raises (self : GenFluxCatalog.t F) (num : Z) :
  getFlux self num true =
  match getFlux self num false with
  | Ok _ => Raise (AttributeError "'bool' object has no attribute 'erg'")
  | Raise e => Raise e
  end.
Proof.
  unfold getFlux.
  destruct (table_row _ _) as [d|]; [simpl|done].
  destruct (mapM _ _) as [vals|]; [simpl|done].
  destruct (np_mul _ _) as [flux|]; [simpl|done].
  reflexivity.
Qed.

Lemma min_mags_mapM obsdata (mags : string → list F) :
  GenFluxCatalog.filters obsdata = datamodel.filters dm →
  (∀ f, f ∈ datamodel.filters dm →
     table_column (GenFluxCatalog.data obsdata) (sfiltername obsdata f) = Ok (mags f)) →
  min_mags dm obsdata =
  mapM (λ f, np_percentile (List.filter (λ m, flt m (flit 99 0)) (mags f)) (flit 90 0))
       (datamodel.filters dm).
Proof.
  intros Hfs Hcol. unfold min_mags. rewrite Hfs.
  apply for_each_setitem.
  - unfold np_zeros. by rewrite length_replicate.
  - intros acc k f Hf. rewrite (Hcol f Hf). simpl.
    destruct (table_take_where _ _ _ (flit 99 0) (Hcol f Hf)) as (kept & -> & Hkept).
    simpl. rewrite Hkept. done.
Qed.

(** C5. In the ast stage, when the configured magnitude-cut list is [[off]],
    the grid file opens and the catalog loads with the Vega-magnitude column
    of every filter: if every filter has a magnitude below 99, [pick_models]
    is called with one cut per filter, the 90th percentile of the magnitudes
    of that filter that are below 99, plus [off]; if some filter has no
    magnitude below 99, the percentile raises and the stage ends with its
    [IndexError] without calling [pick_models]. *)
Theorem ast_mag_cuts_percentile h off grid calls0 obsdata (mags : string → list F) :
  let opened := E_FileSEDGrid (modelsedgridfile (datamodel.project dm)) in
  let below f := List.filter (λ m, flt m (flit 99 0)) (mags f) in
  datamodel.ast_maglimit dm = [off] →
  w_obj W h opened = Ok grid →
  get_obscat W dm (datamodel.obsfile dm) (datamodel.filters dm) (h ++ [opened])
    = (calls0, Ok obsdata) →
  (∀ f, f ∈ datamodel.filters dm →
     table_column (GenFluxCatalog.data obsdata) (sfiltername obsdata f) = Ok (mags f)) →
  ((∀ f, f ∈ datamodel.filters dm → below f ≠ []) →
   ∃ (percentile : string → F) calls r,
     (∀ f, f ∈ datamodel.filters dm →
        np_percentile (below f) (flit 90 0) = Ok (percentile f)) ∧
     ast_body W dm h =
     (opened :: calls0 ++
      E_pick_models grid
        (map (λ f, fadd (percentile f) off) (datamodel.filters dm))
        (datamodel.ast_bands_above_maglimit dm)
        (datamodel.ast_models_selected_per_age dm)
        (datamodel.ast_realization_per_model dm) :: calls, r)) ∧
  ((∃ f, f ∈ datamodel.filters dm ∧ below f = []) →
   ast_body W dm h = (opened :: calls0, Raise IndexError)).
Proof.
  intros opened below Hlim Hgrid Hcat Hcol.
  destruct (GenFluxCatalog_init_Ok W dm _ _ _ _ _ Hcat) as (_ & _ & Hfs & _).
  assert (min_mags dm obsdata =
          mapM (λ f, np_percentile (below f) (flit 90 0)) (datamodel.filters dm))
    as Hmins by exact (min_mags_mapM obsdata mags Hfs Hcol).
  split.
  - intros Hsome.
    set (percentile := λ f, match below f with
                            | m :: ms => fpercentile m ms (flit 90 0)
                            | [] => off
                            end).
    assert (∀ f, f ∈ datamodel.filters dm →
              np_percentile (below f) (flit 90 0) = Ok (percentile f)) as Hper.
    { intros f Hf. specialize (Hsome f Hf). unfold percentile.
      by destruct (below f). }
    exists percentile. rewrite (mapM_Ok_fmap _ percentile _ Hper) in Hmins.
    unfold ast_body, mag_cuts. rewrite Hlim. simpl.
    unfold mbind at 1. unfold M_bind at 1. unfold call at 1. fold opened. rewrite Hgrid.
    unfold mbind, M_bind. rewrite Hcat. unfold lift. rewrite Hmins.
    unfold np_add. rewrite np_broadcast_scalar_r. rewrite <- list_fmap_compose.
    unfold call at 1.
    destruct (w_none W _ _) as [[]|e]; simpl.
    + destruct (if datamodel.ast_with_positions dm then _ else _) as [t2 r] eqn:Hrest.
      rewrite !app_nil_r. simpl. by eexists _, _.
    + rewrite !app_nil_r. by eexists _, _.
  - intros (f & Hf & Hnone).
    rewrite (mapM_Raise _ _ IndexError) in Hmins.
    + unfold ast_body, mag_cuts. rewrite Hlim. simpl.
      unfold mbind at 1. unfold M_bind at 1. unfold call at 1. fold opened. rewrite Hgrid.
      unfold mbind, M_bind. rewrite Hcat. unfold lift. rewrite Hmins.
      simpl. by rewrite !app_nil_r.
    + intros f' _. destruct (below f'); [by left|by right].
    + exists f. split; [done|]. by rewrite Hnone.
Qed.
End catalog_properties.

Section distance_properties.
Context {F : Type} `{NumOps F} {Obj : Type}.
Variable W : World F Obj.
Variable dm : datamodel.t F Obj.
Local Abbreviation event := (Event F Obj).

Lemma physicsmodel_distances_cases (d0 : Quantity F) (rest : list (Quantity F)) :
  physicsmodel_distances (d0 :: rest) =
  match unit_of d0 with
  | u_mag =>
      Ok (QuantityArray
            (map (λ q, fpow (flit 10 0) (fadd (fdiv (value q) (flit 5 0)) (flit 1 0)))
                 (d0 :: rest))
            u_pc)
  | u_pc => Ok (QuantityList (d0 :: rest))
  | _ => Raise (ValueError "distance modulus does not have mag or parsec units")
  end.
Proof.
  unfold physicsmodel_distances. rewrite py_index_0. cbn [mbind result_bind].
  rewrite !map_map. by destruct (unit_of d0).
Qed.

(** C1 (as amended). In the physicsmodel stage the unit of the first configured
    distance decides: for magnitudes every entry [d] becomes
    [10^(d/5 + 1)] parsecs; for parsecs the configured list passes through
    unchanged; for any other unit, other length units included, the
    computation raises the [ValueError]. Whatever [distances] a grid builder
    receives is that result, and with any other unit no grid-building call is
    made and the stage does not return: once the project directory and the
    isochrone table calls have returned it ends in the [ValueError]. *)
Theorem physicsmodel_distance_units (d0 : Quantity F) (rest : list (Quantity F))
    (h : list event) :
  datamodel.distances dm = d0 :: rest →
  let ds := datamodel.distances dm in
  let project := datamodel.project dm in
  physicsmodel_distances ds =
    match unit_of d0 with
    | u_mag =>
        Ok (QuantityArray
              (map (λ q, fpow (flit 10 0) (fadd (fdiv (value q) (flit 5 0)) (flit 1 0)))
                   ds)
              u_pc)
    | u_pc => Ok (QuantityList ds)
    | _ => Raise (ValueError "distance modulus does not have mag or parsec units")
    end ∧
  (∀ e d, e ∈ fst (physicsmodel_body W dm h) → distances_passed e = Some d →
     physicsmodel_distances ds = Ok d) ∧
  (unit_of d0 ≠ u_mag → unit_of d0 ≠ u_pc →
     Forall (λ e, builds_grid e = false) (fst (physicsmodel_body W dm h)) ∧
     is_Ok (snd (physicsmodel_body W dm h)) = false ∧
     ∀ pdir logtmin logtmax dlogt iso,
       w_obj W h (E_create_project_dir project) = Ok pdir →
       py_index (datamodel.logt dm) 0%Z = Ok logtmin →
       py_index (datamodel.logt dm) 1%Z = Ok logtmax →
       py_index (datamodel.logt dm) 2%Z = Ok dlogt →
       w_named W (h ++ [E_create_project_dir project])
         (E_make_iso_table project (datamodel.oiso dm) logtmin logtmax dlogt
            (datamodel.z dm)) = Ok iso →
       physicsmodel_body W dm h =
       ([E_create_project_dir project;
         E_make_iso_table project (datamodel.oiso dm) logtmin logtmax dlogt
           (datamodel.z dm)],
        Raise (ValueError "distance modulus does not have mag or parsec units"))).
Proof.
  intros Hds ds project. subst ds. rewrite Hds.
  pose proof (physicsmodel_distances_cases d0 rest) as Hcases.
  split; [exact Hcases|].
  unfold physicsmodel_body, call, lift, mbind, M_bind, mret, M_ret. rewrite Hds.
  fold project.
  destruct (w_obj W h _) as [pdir|err] eqn:Hpdir; cbn [fst snd].
  2:{ split; [by intros e d [->|[]%elem_of_nil]%elem_of_cons|].
      intros _ _. split; [by repeat constructor|]. split; [done|]. intros; congruence. }
  destruct (py_index _ 0%Z) as [logtmin|err] eqn:H0; cbn [fst snd].
  2:{ split; [by intros e d [->|[]%elem_of_nil]%elem_of_cons|].
      intros _ _. split; [by repeat constructor|]. split; [done|]. intros; congruence. }
  destruct (py_index _ 1%Z) as [logtmax|err] eqn:H1; cbn [fst snd].
  2:{ split; [by intros e d [->|[]%elem_of_nil]%elem_of_cons|].
      intros _ _. split; [by repeat constructor|]. split; [done|]. intros; congruence. }
  destruct (py_index _ 2%Z) as [dlogt|err] eqn:H2; cbn [fst snd].
  2:{ split; [by intros e d [->|[]%elem_of_nil]%elem_of_cons|].
      intros _ _. split; [by repeat constructor|]. split; [done|]. intros; congruence. }
  rewrite !app_nil_r.
  destruct (w_named W _ _) as [[iso_fname oiso]|err] eqn:Hiso; cbn [fst snd app].
  2:{ split.
      { intros e d Hin; repeat (apply elem_of_cons in Hin as [->|Hin]; [done|]).
        by apply elem_of_nil in Hin. }
      intros _ _. split; [by repeat constructor|]. split; [done|]. intros; congruence. }
  destruct (physicsmodel_distances (d0 :: rest)) as [distances|err] eqn:Hdist;
    cbn [fst snd app].
  2:{ split.
      { intros e d Hin; repeat (apply elem_of_cons in Hin as [->|Hin]; [done|]).
        by apply elem_of_nil in Hin. }
      intros Hmag Hpc. split; [by repeat constructor|]. split; [done|].
      intros ????? [= <-] [= <-] [= <-] [= <-] _.
      do 2 f_equal. by destruct (unit_of d0); simplify_eq. }
  split.
  - clear Hcases.
    repeat match goal with
    | |- context [w_named W ?h ?e] => destruct (w_named W h e) as [[??]|?]; cbn [fst snd app] in *
    | |- context [w_obj W ?h ?e] => destruct (w_obj W h e) as [?|?]; cbn [fst snd app] in *
    end.
    all: intros ev d Hin Hd.
    all: repeat (apply elem_of_cons in Hin as [->|Hin];
                 [simpl in Hd; by simplify_eq|]).
    all: by apply elem_of_nil in Hin.
  - intros Hmag Hpc. exfalso. by destruct (unit_of d0).
Qed.
End distance_properties.


Lemma parse_args_nil : parse_args [] = mkArgs false false false false false false.
Proof. reflexivity. Qed.

Lemma parse_args_only_resume (argv : list flag) :
  opt_resume ∈ argv → (∀ fl, fl ∈ argv → fl = opt_resume) →
  parse_args argv = mkArgs false false false false false true.
Proof.
  intros Hin Hall. unfold parse_args.
  rewrite (bool_decide_eq_true_2 _ Hin).
  rewrite !bool_decide_eq_false_2; [done|..]; by intros ?%Hall.
Qed.

Section script_properties.
Context {F : Type} `{NumOps F} {Obj : Type}.
Variable W : World F Obj.
Variable dm : datamodel.t F Obj.
Local Abbreviation event := (Event F Obj).
Local Abbreviation M := (@M F Obj).
Local Abbreviation Script := (@Script F Obj).
Local Abbreviation block := (@block F Obj).

(** One step of the script: a section is entered, its body runs on the calls
    made so far, and the script goes on only if the body returned. *)
Lemma enter_then sec (body : M unit) (k : Script unit) (bs : list block) :
  (enter sec body ;; k) bs =
  match body (calls_of bs) with
  | (calls, Ok _) => k (bs ++ [(sec, calls)])
  | (calls, Raise e) => (bs ++ [(sec, calls)], Raise e)
  end.
Proof.
  unfold mbind, Script_bind, enter. by destruct (body (calls_of bs)) as [calls [[]|e]].
Qed.

Lemma when_true_then sec (body : M unit) (k : Script unit) (bs : list block) :
  (when true (enter sec body) ;; k) bs =
  match body (calls_of bs) with
  | (calls, Ok _) => k (bs ++ [(sec, calls)])
  | (calls, Raise e) => (bs ++ [(sec, calls)], Raise e)
  end.
Proof. apply enter_then. Qed.

Lemma when_false_then (body k : Script unit) (bs : list block) :
  (when false body ;; k) bs = k bs.
Proof. reflexivity. Qed.

Lemma when_last (b : bool) sec (body : M unit) (bs : list block) :
  when b (enter sec body) bs =
  if b then (bs ++ [(sec, fst (body (calls_of bs)))], snd (body (calls_of bs)))
  else (bs, Ok tt).
Proof. destruct b; [|done]. simpl. unfold enter. by destruct (body _). Qed.



(** C7. When the verification of the configuration returns, an invocation
    without any of the six flags verifies, prints the usage help and returns
    without error: no stage is entered and no call that writes a file is
    made. *)
Theorem no_flags_prints_help :
  w_none W [] E_verify_input_format = Ok tt →
  run_beast W dm [] =
    ([(Verify, [E_verify_input_format]); (Help, [E_print_help])], Ok tt) ∧
  stages_entered (fst (run_beast W dm [])) = [] ∧
  Forall (λ e, writes_files e = false) (calls_of (fst (run_beast W dm []))).
Proof.
  intros Hverify.
  assert (run_beast W dm [] =
          ([(Verify, [E_verify_input_format]); (Help, [E_print_help])], Ok tt)) as ->.
  { unfold run_beast. rewrite parse_args_nil. unfold script.
    cbn [args_physicsmodel args_ast args_observationmodel args_trim args_fit
         args_resume any_args negb orb].
    rewrite enter_then. unfold call at 1. cbn [calls_of map concat]. rewrite Hverify.
    rewrite !when_false_then, when_last. reflexivity. }
  split; [done|]. split; [done|]. by repeat constructor.
Qed.

(** C10. An invocation with the resume flag and no other flag makes the
    verification call and nothing else: no stage is entered, the help
    fallback is not entered, nothing is printed, and the outcome is that of
    the verification. *)
Theorem only_resume_is_silent (argv : list flag) :
  opt_resume ∈ argv → (∀ fl, fl ∈ argv → fl = opt_resume) →
  run_beast W dm argv =
    ([(Verify, [E_verify_input_format])], w_none W [] E_verify_input_format) ∧
  stages_entered (fst (run_beast W dm argv)) = [] ∧
  Forall (λ b, fst b ≠ Help) (fst (run_beast W dm argv)) ∧
  Forall (λ e, prints e = false) (calls_of (fst (run_beast W dm argv))).
Proof.
  intros Hin Hall.
  assert (run_beast W dm argv =
          ([(Verify, [E_verify_input_format])], w_none W [] E_verify_input_format)) as ->.
  { unfold run_beast. rewrite (parse_args_only_resume _ Hin Hall). unfold script.
    cbn [args_physicsmodel args_ast args_observationmodel args_trim args_fit
         args_resume any_args negb orb].
    rewrite enter_then. unfold call at 1. cbn [calls_of map concat].
    destruct (w_none W [] E_verify_input_format) as [[]|e]; [|done].
    rewrite !when_false_then, when_last. reflexivity. }
  split; [done|]. split; [done|]. split; by repeat constructor.
Qed.

Lemma get_obscat_calls obsfile fs h :
  let opened := E_Observations_init obsfile ("GENERIC star: " +:+ obsfile) in
  fst (get_obscat W dm obsfile fs h) = [opened] ∨
  fst (get_obscat W dm obsfile fs h) = [opened; E_Vega_getFlux fs].
Proof.
  unfold get_obscat, GenFluxCatalog_init, setFilters, call, lift, mbind, M_bind, mret, M_ret.
  simpl. destruct (w_table W h _) as [tbl|]; [|by left].
  destruct (w_floats W _ _) as [vega|]; [|by right]. simpl.
  destruct (for_each _ _ _) as [t'|]; by right.
Qed.




End script_properties.

Section file_name_properties.
Context {F : Type} `{NumOps F} {Obj : Type}.
Variable W : World F Obj.
Variable dm : datamodel.t F Obj.
Local Abbreviation event := (Event F Obj).

(** C2 (as amended). For every project name the trimmed-noise-model file name
    is the SED grid file name [<project>/<project>_seds.grid.hd5] with
    [_seds] replaced by [_noisemodel_trim]; it is the name the trim stage
    hands to [trim_models], next to the SED grid name with [_seds] replaced
    by [_seds_trim]. *)
Theorem trimmed_noisemodel_name (project : string) (h : list event) :
  noisemodel_trimname project =
    Str.replace "_seds" "_noisemodel_trim" (modelsedgridfile project) ∧
  ∀ e s n, e ∈ fst (trim_body W dm h) → trim_outputs e = Some (s, n) →
    s = Str.replace "_seds" "_seds_trim" (modelsedgridfile (datamodel.project dm)) ∧
    n = Str.replace "_seds" "_noisemodel_trim" (modelsedgridfile (datamodel.project dm)).
Proof.
  split; [apply noisemodel_trimname_eq|].
  unfold trim_body, emit, call, mbind, M_bind.
  pose proof (get_obscat_calls W dm (datamodel.obsfile dm) (datamodel.filters dm)
                (h ++ [E_print [PStr "Trimming the model and noise grids"]])) as Hc.
  destruct (get_obscat W dm _ _ _) as [calls0 [obsdata|err]]; simpl in Hc.
  - repeat match goal with
           | |- context [w_obj W ?h ?e] => destruct (w_obj W h e) as [?|?]
           | |- context [w_none W ?h ?e] => destruct (w_none W h e) as [[]|?]
           end.
    all: cbn [fst snd app]; intros ev s n Hin Hout.
    all: destruct Hc as [-> | ->]; cbn [app] in Hin.
    all: repeat (apply elem_of_cons in Hin as [->|Hin]; [try done|]).
    all: try (by apply elem_of_nil in Hin).
    all: simpl in Hout; injection Hout as <- <-.
    all: by rewrite <- noisemodel_trimname_eq.
  - cbn [fst snd app]. intros ev s n Hin Hout.
    destruct Hc as [-> | ->]; cbn [app] in Hin.
    all: repeat (apply elem_of_cons in Hin as [->|Hin]; [try done|]).
    all: by apply elem_of_nil in Hin.
Qed.
End file_name_properties.

(** ** Closed instances *)

(** C1 at the example project, distance moduli 20 and 25. *)
Lemma physicsmodel_distance_units_witness :
  physicsmodel_distances (H := Z_NumOps) (datamodel.distances example_mag)
  = Ok (QuantityArray [100000; 1000000]%Z u_pc).
Proof.
  destruct (physicsmodel_distance_units (H := Z_NumOps) example_world example_mag
              (mkQuantity 20%Z u_mag) [mkQuantity 25%Z u_mag] [] eq_refl) as [Hmag _].
  exact Hmag.
Defined.

(** C1 as stated fails: kiloparsec is a length unit, and a list in kiloparsecs
    does not pass through but raises. *)
Lemma kpc_distances_raise :
  is_length u_kpc = true ∧
  physicsmodel_distances (H := Z_NumOps) [mkQuantity 50%Z u_kpc]
    = Raise (ValueError "distance modulus does not have mag or parsec units") ∧
  physicsmodel_distances (H := Z_NumOps) [mkQuantity 50%Z u_kpc]
    ≠ Ok (QuantityList [mkQuantity 50%Z u_kpc]) ∧
  run_beast (H := Z_NumOps) example_world example_kpc [opt_physicsmodel] =
    ([(Verify, [E_verify_input_format]);
      (Stage physicsmodel,
       [E_create_project_dir "beast_example_phat";
        E_make_iso_table "beast_example_phat" "PadovaWeb" 6%Z 10%Z 1%Z "z"])],
     Raise (ValueError "distance modulus does not have mag or parsec units")).
Proof. repeat split; [discriminate]. Qed.

(** C2 as stated fails: the name has [_noisemodel_trim], not [_noisemodel]. *)
Lemma trimmed_noisemodel_name_differs :
  noisemodel_trimname "beast_example_phat"
    = "beast_example_phat/beast_example_phat_noisemodel_trim.grid.hd5" ∧
  Str.replace "_seds" "_noisemodel" (modelsedgridfile "beast_example_phat")
    = "beast_example_phat/beast_example_phat_noisemodel.grid.hd5" ∧
  noisemodel_trimname "beast_example_phat"
    ≠ Str.replace "_seds" "_noisemodel" (modelsedgridfile "beast_example_phat").
Proof. repeat split. discriminate. Qed.

(** C3 at the example project. *)
Lemma fit_finds_trimmed_noisemodel_witness :
  noisemodelfile "beast_example_phat" = noisemodel_trimname "beast_example_phat".
Proof.
  apply (proj2 (fit_finds_trimmed_noisemodel "beast_example_phat")). reflexivity.
Defined.

(** C3 fails in the code for a project name that contains [_seds]: the fit
    stage looks for another file than the one the trim stage wrote. *)
Lemma seds_project_breaks_fit :
  noisemodelfile "a_seds" = "a_noisemodel/a_noisemodel_noisemodel_trim.grid.hd5" ∧
  noisemodel_trimname "a_seds"
    = "a_noisemodel_trim/a_noisemodel_trim_noisemodel_trim.grid.hd5" ∧
  noisemodelfile "a_seds" ≠ noisemodel_trimname "a_seds".
Proof. repeat split. discriminate. Qed.

(** The catalog of the example project, as [get_obscat] builds it. *)
Lemma example_catalog :
  ∃ obsdata,
    get_obscat example_world example_mag
      (datamodel.obsfile example_mag) (datamodel.filters example_mag) []
    = ([E_Observations_init "data/b15_4band_det_27_A.fits"
          "GENERIC star: data/b15_4band_det_27_A.fits";
        E_Vega_getFlux ["HST_ACS_WFC_F475W"; "HST_ACS_WFC_F814W"]], Ok obsdata) ∧
    getFlux (H := Z_NumOps) obsdata 1%Z false = Ok (Flux [22; 42]%Z) ∧
    getFlux (H := Z_NumOps) obsdata (-1)%Z false = Ok (Flux [26; 46]%Z) ∧
    getFlux (H := Z_NumOps) obsdata 4%Z false = Raise IndexError ∧
    getFlux (H := Z_NumOps) obsdata 1%Z true
      = Raise (AttributeError "'bool' object has no attribute 'erg'").
Proof. eexists. split; [reflexivity|]. repeat split. Qed.

(** C6 at row 1 of the example catalog. *)
Lemma getFlux_scaled_rates_witness :
  ∃ obsdata flux,
    snd (GenFluxCatalog_init example_world example_mag
           "data/b15_4band_det_27_A.fits" (datamodel.filters example_mag) [])
      = Ok obsdata ∧
    getFlux (H := Z_NumOps) obsdata 1%Z false = Ok (Flux flux) ∧
    length flux = 2 ∧
    flux !! 0 = Some 22%Z ∧ flux !! 1 = Some 42%Z.
Proof.
  destruct (GenFluxCatalog_init example_world example_mag
              "data/b15_4band_det_27_A.fits" (datamodel.filters example_mag) [])
    as [calls [obsdata|err]] eqn:Hinit; [|discriminate Hinit].
  pose proof Hinit as Hval. vm_compute in Hval. injection Hval as _ <-.
  destruct (getFlux_scaled_rates (H := Z_NumOps) example_world example_mag
              _ _ _ _ _ 1%Z [11; 99; 21; 23]%Z
              (λ f, if String.eqb f "HST_ACS_WFC_F475W" then 11%Z else 21%Z) Hinit)
    as (_ & _ & _ & flux & Hflux & Hlen & Hk).
  - reflexivity.
  - reflexivity.
  - intros f [->|[->|[]%elem_of_nil]%elem_of_cons]%elem_of_cons; reflexivity.
  - eexists _, flux. split; [reflexivity|]. split; [exact Hflux|]. split; [exact Hlen|].
    split; [apply (Hk 0 "HST_ACS_WFC_F475W" 2%Z) | apply (Hk 1 "HST_ACS_WFC_F814W" 2%Z)];
      reflexivity.
Defined.

(** C5 at the example project: the magnitudes below 99 are 25, 31, 26 and
    28, 23, 22, their 90th percentiles 30 and 27. *)
Lemma ast_mag_cuts_percentile_witness :
  ∃ calls0 calls r,
    ast_body (H := Z_NumOps) example_world example_mag [] =
    (E_FileSEDGrid "beast_example_phat/beast_example_phat_seds.grid.hd5"
       :: calls0 ++ E_pick_models "obj" [31; 28]%Z 3%Z 70%Z 20%Z :: calls, r).
Proof.
  destruct (get_obscat example_world example_mag
              (datamodel.obsfile example_mag) (datamodel.filters example_mag)
              ([] ++ [E_FileSEDGrid (modelsedgridfile (datamodel.project example_mag))]))
    as [calls0 [obsdata|err]] eqn:Hcat; [|discriminate Hcat].
  pose proof Hcat as Hval. vm_compute in Hval. injection Hval as _ <-.
  destruct (ast_mag_cuts_percentile (H := Z_NumOps) example_world example_mag
              [] 1%Z "obj" calls0 _
              (λ f, if String.eqb f "HST_ACS_WFC_F475W"
                    then [25; 99; 31; 26]%Z else [28; 23; 99; 22]%Z)
              eq_refl eq_refl Hcat) as [Hcuts _].
  - intros f [->|[->|[]%elem_of_nil]%elem_of_cons]%elem_of_cons; reflexivity.
  - destruct Hcuts as (percentile & calls & r & Hper & Hrun).
    + intros f [->|[->|[]%elem_of_nil]%elem_of_cons]%elem_of_cons; discriminate.
    + exists calls0, calls, r. rewrite Hrun.
      pose proof (Hper "HST_ACS_WFC_F475W" ltac:(left)) as H1.
      pose proof (Hper "HST_ACS_WFC_F814W" ltac:(right; left)) as H2.
      vm_compute in H1, H2. injection H1 as H1. injection H2 as H2.
      change (datamodel.filters example_mag)
        with ["HST_ACS_WFC_F475W"; "HST_ACS_WFC_F814W"].
      cbn [map]. rewrite <- H1, <- H2. reflexivity.
Defined.

(** A catalog without a magnitude below 99 in the first filter: the percentile
    raises and [pick_models] is not called. *)
Lemma ast_without_magnitude_below_99 :
  ast_body (H := Z_NumOps)
    (example_world_with
       (mkTable ["F475W_RATE"; "F475W_VEGA"; "F814W_RATE"; "F814W_VEGA"]
          [[10; 99; 20; 28]; [11; 99; 21; 23]]%Z ∅))
    example_mag [] =
  ([E_FileSEDGrid "beast_example_phat/beast_example_phat_seds.grid.hd5";
    E_Observations_init "data/b15_4band_det_27_A.fits"
      "GENERIC star: data/b15_4band_det_27_A.fits";
    E_Vega_getFlux ["HST_ACS_WFC_F475W"; "HST_ACS_WFC_F814W"]],
   Raise IndexError).
Proof. reflexivity. Qed.

(** C7 in the example world. *)
Lemma no_flags_prints_help_witness :
  run_beast (H := Z_NumOps) example_world example_mag [] =
  ([(Verify, [E_verify_input_format]); (Help, [E_print_help])], Ok tt).
Proof.
  exact (proj1 (no_flags_prints_help (H := Z_NumOps) example_world example_mag eq_refl)).
Defined.



(** C10 for the command line [-r -r]. *)
Lemma only_resume_is_silent_witness :
  run_beast (H := Z_NumOps) example_world example_mag [opt_resume; opt_resume] =
  ([(Verify, [E_verify_input_format])], Ok tt).
Proof.
  refine (proj1 (only_resume_is_silent (H := Z_NumOps) example_world example_mag
                   [opt_resume; opt_resume] _ _)).
  - left.
  - intros fl [->|[->|[]%elem_of_nil]%elem_of_cons]%elem_of_cons; reflexivity.
Defined.

(** ** Further properties of the two files *)

(** ** More on the scan of [str.replace] *)
Section more_replace.
Implicit Types s t u v old new : string.

Lemma sapp_nil_r s : s +:+ "" = s.
Proof. induction s as [|c s IH]; [done|]. by rewrite sapp_cons, IH. Qed.

Lemma has_char_app c s t : has_char c (s +:+ t) = has_char c s || has_char c t.
Proof.
  induction s as [|a s IH]; [done|]. rewrite sapp_cons. simpl.
  by destruct (ascii_dec c a).
Qed.

(** A character that is not in [old] ends every attempt to match [old]. *)
Lemma prefix_app_other old u c0 t :
  has_char c0 old = false →
  String.prefix old (u +:+ String c0 t) = String.prefix old u.
Proof.
  revert u. induction old as [|a old IH]; intros u Hc.
  - by rewrite !prefix_nil_l.
  - simpl in Hc. destruct (ascii_dec c0 a) as [|Hne]; [done|].
    destruct u as [|b u].
    + rewrite sapp_nil_l, prefix_cons, prefix_nil_r.
      destruct (ascii_dec a c0); [congruence|done].
    + rewrite sapp_cons, !prefix_cons. destruct (ascii_dec a b); [|done]. by apply IH.
Qed.

Lemma straddle_free_other old s c0 t :
  has_char c0 old = false → straddle_free old s (String c0 t).
Proof. intros Hc u c v _. by apply prefix_app_other. Qed.

Lemma replace_other_head old new c0 t :
  old ≠ "" → has_char c0 old = false →
  Str.replace old new (String c0 t) = String c0 (Str.replace old new t).
Proof.
  intros Hne Hc. apply replace_miss.
  destruct old as [|a old]; [done|]. rewrite prefix_cons. simpl in Hc.
  destruct (ascii_dec c0 a); [done|]. destruct (ascii_dec a c0); [congruence|done].
Qed.

(** The scan of a path [<project>/<project><c><suffix>] when neither [/] nor
    [c] is a character of [old]. *)
Lemma replace_project_path old new project c0 suffix :
  old ≠ "" → has_char "/" old = false → has_char c0 old = false →
  Str.replace old new (((project +:+ "/") +:+ project) +:+ String c0 suffix) =
  Str.replace old new project +:+ "/" +:+
  Str.replace old new project +:+ String c0 (Str.replace old new suffix).
Proof.
  intros Hne Hslash Hc. rewrite !sapp_assoc.
  rewrite replace_app; [|done|by apply straddle_free_other].
  f_equal. rewrite sapp_cons, sapp_nil_l, replace_other_head by done. f_equal.
  rewrite replace_app; [|done|by apply straddle_free_other].
  by rewrite replace_other_head.
Qed.

Lemma replace_length_le old new s :
  old ≠ "" → String.length old ≤ String.length new →
  String.length s ≤ String.length (Str.replace old new s).
Proof.
  intros Hne Hlen. revert s. apply (scan_ind old); [done|..].
  - by rewrite replace_nil.
  - intros t IH. rewrite replace_hit, !slength_app by done. lia.
  - intros c s Hp IH. rewrite replace_miss by done. simpl. lia.
Qed.

Lemma replace_length_lt old new s :
  old ≠ "" → String.length old < String.length new →
  Str.contains old s = true →
  String.length s < String.length (Str.replace old new s).
Proof.
  intros Hne Hlen. induction s as [|c s IH].
  - destruct old; [done|]. done.
  - destruct (String.prefix old (String c s)) eqn:Hp.
    + intros _. destruct (prefix_inv _ _ Hp) as [t ->].
      rewrite replace_hit, !slength_app by done.
      pose proof (replace_length_le old new t Hne). lia.
    + intros Hc. rewrite replace_miss by done.
      cbn [Str.contains] in Hc. rewrite Hp in Hc. simpl in Hc. apply IH in Hc.
      simpl. lia.
Qed.

(** Two strings that end in different words of one length differ. *)
Lemma sapp_inv_suffix s t x y :
  s +:+ x = t +:+ y → String.length x = String.length y → x = y.
Proof.
  intros Heq Hlen.
  assert (String.length s = String.length t) as Hst.
  { apply (f_equal String.length) in Heq. rewrite !slength_app in Heq. lia. }
  clear Hlen. revert t Heq Hst.
  induction s as [|a s IH]; intros [|b t] Heq Hst; try discriminate.
  - done.
  - rewrite !sapp_cons in Heq. injection Heq as _ Heq. injection Hst as Hst. eauto.
Qed.
End more_replace.

(** ** The file names of the trim and fit stages *)

Lemma sed_trimname_scan project :
  sed_trimname project =
  Str.replace "_seds" "_seds_trim" project +:+ "/" +:+
  Str.replace "_seds" "_seds_trim" project +:+ "_seds_trim.grid.hd5".
Proof. unfold sed_trimname. by rewrite modelsedgridfile_scan. Qed.

Lemma noisemodel_trimname_scan project :
  noisemodel_trimname project =
  Str.replace "_seds" "_noisemodel_trim" project +:+ "/" +:+
  Str.replace "_seds" "_noisemodel_trim" project +:+ "_noisemodel_trim.grid.hd5".
Proof. by rewrite noisemodel_trimname_eq, modelsedgridfile_scan. Qed.

(** X1. The grid file the fit stage opens is the trimmed grid file the trim
    stage writes exactly when the project name does not contain [_seds]. *)
Theorem fit_opens_trimmed_grid project :
  fit_modelsedgrid project = sed_trimname project ↔
  Str.contains "_seds" project = false.
Proof.
  rewrite sed_trimname_scan. unfold fit_modelsedgrid. rewrite !sapp_assoc. split.
  - intros Heq. destruct (Str.contains "_seds" project) eqn:Hc; [exfalso|done].
    apply (replace_length_lt "_seds" "_seds_trim") in Hc; [|done|simpl; lia].
    apply (f_equal String.length) in Heq. rewrite !slength_app in Heq. lia.
  - intros Hc. by rewrite !replace_free.
Qed.

(** X2. For every project name the two files the trim stage writes are new
    files: neither is the full grid file the stage reads, the two differ from
    each other, and the trimmed noise model is not [P/P_noisemodel.hd5], the
    noise-model name that [datamodel.py] composes. *)
Theorem trim_outputs_fresh project :
  sed_trimname project ≠ modelsedgridfile project ∧
  noisemodel_trimname project ≠ modelsedgridfile project ∧
  sed_trimname project ≠ noisemodel_trimname project ∧
  noisemodel_trimname project ≠ default_noisefile project.
Proof.
  rewrite sed_trimname_scan, noisemodel_trimname_scan.
  unfold modelsedgridfile, default_noisefile. rewrite !sapp_assoc.
  repeat split; intros Heq.
  - change "_seds_trim.grid.hd5" with ("_seds" +:+ "_trim.grid.hd5") in Heq.
    rewrite <- !sapp_assoc in Heq. by apply sapp_inv_suffix in Heq.
  - change "_noisemodel_trim.grid.hd5" with ("_noisemodel" +:+ "_trim.grid.hd5") in Heq.
    rewrite <- !sapp_assoc in Heq. by apply sapp_inv_suffix in Heq.
  - change "_noisemodel_trim.grid.hd5" with ("_noise" +:+ "model_trim.grid.hd5") in Heq.
    rewrite <- !sapp_assoc in Heq. by apply sapp_inv_suffix in Heq.
  - change "_noisemodel_trim.grid.hd5" with ("_noisemodel_trim." +:+ "grid.hd5") in Heq.
    change "_noisemodel.hd5" with ("_noisem" +:+ "odel.hd5") in Heq.
    rewrite <- !sapp_assoc in Heq. by apply sapp_inv_suffix in Heq.
Qed.

Lemma statsfile_scan new project :
  Str.replace "stats.fits" new (statsfile project) =
  Str.replace "stats.fits" new project +:+ "/" +:+
  Str.replace "stats.fits" new project +:+ "_" +:+ new.
Proof.
  unfold statsfile.
  rewrite (replace_project_path "stats.fits" new project "_" "stats.fits");
    [|done|reflexivity|reflexivity].
  assert (Str.replace "stats.fits" new "stats.fits" = new) as ->; [|done].
  change "stats.fits" with ("stats.fits" +:+ "") at 2.
  by rewrite replace_hit, replace_nil, sapp_nil_r.
Qed.

(** X3. The 1D-pdf and lnp file names of the fit stage are the project
    directory and project name with [stats.fits] replaced in them, followed
    by [_pdf1d.fits] and [_lnp.hd5]; the three output names of the fit stage
    are pairwise different for every project name; and for a project name
    without [stats.fits] the names are [P/P_pdf1d.fits] and [P/P_lnp.hd5]. *)
Theorem fit_output_names project :
  (pdf1dfile project =
     Str.replace "stats.fits" "pdf1d.fits" project +:+ "/" +:+
     Str.replace "stats.fits" "pdf1d.fits" project +:+ "_pdf1d.fits") ∧
  (lnpfile project =
     Str.replace "stats.fits" "lnp.hd5" project +:+ "/" +:+
     Str.replace "stats.fits" "lnp.hd5" project +:+ "_lnp.hd5") ∧
  statsfile project ≠ pdf1dfile project ∧
  statsfile project ≠ lnpfile project ∧
  pdf1dfile project ≠ lnpfile project ∧
  (Str.contains "stats.fits" project = false →
     pdf1dfile project = ((project +:+ "/") +:+ project) +:+ "_pdf1d.fits" ∧
     lnpfile project = ((project +:+ "/") +:+ project) +:+ "_lnp.hd5").
Proof.
  unfold pdf1dfile, lnpfile. rewrite !statsfile_scan.
  split; [done|]. split; [done|].
  unfold statsfile. rewrite !sapp_assoc.
  repeat split.
  - intros Heq. change "_stats.fits" with ("_" +:+ "stats.fits") in Heq.
    rewrite <- !sapp_assoc in Heq. by apply sapp_inv_suffix in Heq.
  - intros Heq. change "_stats.fits" with ("_sta" +:+ "ts.fits") in Heq.
    rewrite <- !sapp_assoc in Heq. by apply sapp_inv_suffix in Heq.
  - intros Heq. change "pdf1d.fits" with ("pdf" +:+ "1d.fits") in Heq at 3.
    rewrite <- !sapp_assoc in Heq. by apply sapp_inv_suffix in Heq.
  - by rewrite !replace_free.
  - by rewrite !replace_free.
Qed.


Lemma py_index_Ok_lt {A} (l : list A) (i : nat) (x : A) :
  py_index l (Z.of_nat i) = Ok x → i < length l.
Proof. intros Hx%py_index_nat_inv. by eapply lookup_lt_Some. Qed.

Lemma upper_char_not_r (c : ascii) : Str.upper_char c ≠ "r"%char.
Proof. destruct c as [[] [] [] [] [] [] [] []]; vm_compute; discriminate. Qed.

Lemma has_char_cons (c a : ascii) (s : string) :
  has_char c (String a s) = if ascii_dec c a then true else has_char c s.
Proof. reflexivity. Qed.

Lemma has_char_upper_r (s : string) : has_char "r" (Str.upper s) = false.
Proof.
  induction s as [|c s IH]; [done|].
  change (Str.upper (String c s)) with (String (Str.upper_char c) (Str.upper s)).
  rewrite has_char_cons.
  destruct (ascii_dec "r" (Str.upper_char c)) as [Heq|]; [|done].
  by destruct (upper_char_not_r c).
Qed.

Lemma contains_head_absent (h : ascii) (old' w : string) :
  has_char h w = false → Str.contains (String h old') w = false.
Proof.
  induction w as [|c w IH]; [done|]. intros Hc. simpl in Hc.
  destruct (ascii_dec h c) as [|Hne]; [done|].
  cbn [Str.contains]. rewrite prefix_cons.
  destruct (ascii_dec h c); [done|]. by apply IH.
Qed.

Lemma lookup_map {A B} (f : A → B) (l : list A) (i : nat) :
  map f l !! i = f <$> l !! i.
Proof. revert i. induction l as [|x l IH]; intros [|i]; simpl; auto. Qed.

Section catalog_more.
Context {F : Type} `{NumOps F} {Obj : Type}.
Variable W : World F Obj.
Variable dm : datamodel.t F Obj.
Local Abbreviation event := (Event F Obj).




(** X10. For a catalog built by the constructor over distinct filters, the
    Vega-magnitude column the ast stage reads for the k-th filter is the
    upper-cased k-th base filter, with [RATE] replaced by [VEGA] in it,
    followed by [_VEGA]. *)
Theorem vega_column_of_filter inputFile fs h calls obsdata k f b :
  GenFluxCatalog_init W dm inputFile fs h = (calls, Ok obsdata) →
  NoDup fs →
  fs !! k = Some f →
  datamodel.basefilters dm !! k = Some b →
  sfiltername obsdata f = Str.replace "RATE" "VEGA" (Str.upper b) +:+ "_VEGA".
Proof.
  intros Hinit Hnd Hk Hb.
  destruct (GenFluxCatalog_init_Ok W dm _ _ _ _ _ Hinit) as (_ & _ & _ & _ & _ & Hal).
  specialize (Hal Hnd k f Hk).
  unfold datamodel.obs_colnames in Hal. rewrite lookup_map, Hb in Hal. simpl in Hal.
  unfold sfiltername, resolve_alias. rewrite Hal. cbn [default from_option id].
  rewrite (replace_free "rate").
  2: done.
  2:{ apply contains_head_absent. by rewrite has_char_app, has_char_upper_r. }
  rewrite replace_app; [done|done|]. by apply straddle_free_other.
Qed.
End catalog_more.

Section stage_more.
Context {F : Type} `{NumOps F} {Obj : Type}.
Variable W : World F Obj.
Variable dm : datamodel.t F Obj.
Local Abbreviation event := (Event F Obj).

Ltac in_list Hin :=
  repeat (apply elem_of_cons in Hin as [->|Hin]; [try done|]);
  try (by apply elem_of_nil in Hin).

(** X11. Whenever the physicsmodel stage makes a grid-building call, the
    configured age grid has at least three entries and the configured
    distances are a non-empty list whose first entry is in magnitudes or in
    parsecs. *)
Theorem physicsmodel_grids_need_valid_config h e :
  e ∈ fst (physicsmodel_body W dm h) → builds_grid e = true →
  3 ≤ length (datamodel.logt dm) ∧
  ∃ d0 rest, datamodel.distances dm = d0 :: rest ∧
             (unit_of d0 = u_mag ∨ unit_of d0 = u_pc).
Proof.
  unfold physicsmodel_body, call, lift, mbind, M_bind, mret, M_ret.
  destruct (w_obj W h _) as [pdir|err]; cbn [fst snd app]; [|intros Hin; in_list Hin].
  destruct (py_index _ 0%Z) as [logtmin|err]; cbn [fst snd app]; [|intros Hin; in_list Hin].
  destruct (py_index _ 1%Z) as [logtmax|err]; cbn [fst snd app]; [|intros Hin; in_list Hin].
  destruct (py_index _ 2%Z) as [dlogt|err] eqn:H2; cbn [fst snd app];
    [|intros Hin; in_list Hin].
  apply (py_index_Ok_lt _ 2) in H2.
  destruct (w_named W _ _) as [[iso_fname oiso]|err]; cbn [fst snd app];
    [|intros Hin; in_list Hin].
  destruct (datamodel.distances dm) as [|d0 rest] eqn:Hds.
  { cbn [fst snd app]. intros Hin. in_list Hin. }
  rewrite physicsmodel_distances_cases.
  destruct (unit_of d0) eqn:Hu; cbn [fst snd app].
  3-10: intros Hin; in_list Hin.
  all: intros _ _; split; [lia|]; exists d0, rest; split; [done|]; auto.
Qed.

(** X6. When opening the full grid file raises, the ast stage ends with that
    error after the attempt alone, the observationmodel stage ends with it
    after its message and the attempt, and the trim stage does not return
    and neither reads the noise model nor calls [trim_models]. *)
Theorem missing_grid_stops_stage e :
  (∀ h, w_obj W h (E_FileSEDGrid (modelsedgridfile (datamodel.project dm))) = Raise e) →
  ∀ h,
    ast_body W dm h =
      ([E_FileSEDGrid (modelsedgridfile (datamodel.project dm))], Raise e) ∧
    observationmodel_body W dm h =
      ([E_print [PStr "Generating noise model from ASTs and absflux A matrix"];
        E_FileSEDGrid (modelsedgridfile (datamodel.project dm))], Raise e) ∧
    is_Ok (snd (trim_body W dm h)) = false ∧
    Forall (λ c, is_get_noisemodelcat c = false ∧ trim_outputs c = None)
      (fst (trim_body W dm h)).
Proof.
  intros Hgrid h. split; [|split].
  - unfold ast_body, call, mbind, M_bind. by rewrite Hgrid.
  - unfold observationmodel_body, emit, call, mbind, M_bind. by rewrite Hgrid.
  - unfold trim_body, emit, call, mbind, M_bind.
    pose proof (get_obscat_calls W dm (datamodel.obsfile dm) (datamodel.filters dm)
                  (h ++ [E_print [PStr "Trimming the model and noise grids"]])) as Hc.
    destruct (get_obscat W dm _ _ _) as [calls0 [obsdata|err]]; simpl in Hc.
    + rewrite Hgrid. cbn [fst snd app]. split; [done|].
      destruct Hc as [-> | ->]; by repeat constructor.
    + cbn [fst snd app]. split; [done|].
      destruct Hc as [-> | ->]; by repeat constructor.
Qed.

Lemma mag_cuts_calls h :
  let opened := E_Observations_init (datamodel.obsfile dm)
                  ("GENERIC star: " +:+ datamodel.obsfile dm) in
  fst (mag_cuts W dm h) = [] ∨ fst (mag_cuts W dm h) = [opened] ∨
  fst (mag_cuts W dm h) = [opened; E_Vega_getFlux (datamodel.filters dm)].
Proof.
  intros opened. unfold mag_cuts. case_decide; [|by left].
  unfold lift, mbind, M_bind.
  pose proof (get_obscat_calls W dm (datamodel.obsfile dm) (datamodel.filters dm) h) as Hc.
  destruct (get_obscat W dm _ _ _) as [calls0 [obsdata|err]]; simpl in Hc.
  - destruct (min_mags dm obsdata) as [mins|err]; cbn [fst snd];
      rewrite ?app_nil_r; destruct Hc as [-> | ->]; auto.
  - cbn [fst]. destruct Hc as [-> | ->]; auto.
Qed.

(** X7. In the ast stage, when the configured magnitude-cut list does not
    have exactly one entry and the grid file opens, [pick_models] is called
    right after with the configured list as it is, and the stage never opens
    the observed catalog. *)
Theorem ast_configured_cuts h grid :
  let opened := E_FileSEDGrid (modelsedgridfile (datamodel.project dm)) in
  length (datamodel.ast_maglimit dm) ≠ 1 →
  w_obj W h opened = Ok grid →
  (∃ calls r,
     ast_body W dm h =
     (opened ::
      E_pick_models grid (datamodel.ast_maglimit dm)
        (datamodel.ast_bands_above_maglimit dm)
        (datamodel.ast_models_selected_per_age dm)
        (datamodel.ast_realization_per_model dm) :: calls, r)) ∧
  Forall (λ c, opens_catalog c = false) (fst (ast_body W dm h)).
Proof.
  intros opened Hlen Hgrid.
  unfold ast_body, mag_cuts. rewrite decide_False by done.
  unfold call, mbind, M_bind, mret, M_ret. fold opened. rewrite Hgrid.
  cbn [fst snd app].
  destruct (w_none W _ (E_pick_models _ _ _ _ _)) as [[]|err]; cbn [fst snd app].
  2:{ split; [by eexists _, _|by repeat constructor]. }
  destruct (datamodel.ast_with_positions dm).
  - destruct (datamodel.ast_reference_image dm) as [image|]; cbn [fst snd app].
    all: split; [by eexists _, _|by repeat constructor].
  - cbn [fst snd app]. split; [by eexists _, _|by repeat constructor].
Qed.

(** X8. Whenever the ast stage calls [pick_positions], positions are switched
    on in the configuration, the file name is [P/P_inputAST.txt] for the
    project [P], and the separation and the reference image are the
    configured ones. *)
Theorem ast_positions h c filename separation refimage :
  c ∈ fst (ast_body W dm h) →
  positions_call c = Some (filename, separation, refimage) →
  datamodel.ast_with_positions dm = true ∧
  filename = ((datamodel.project dm +:+ "/") +:+ datamodel.project dm) +:+ "_inputAST.txt" ∧
  separation = datamodel.ast_pixel_distribution dm ∧
  refimage = datamodel.ast_reference_image dm.
Proof.
  unfold ast_body. unfold mbind at 1, M_bind at 1, call at 1.
  destruct (w_obj W h _) as [grid|err]; cbn [fst snd app]; [|intros Hin; in_list Hin].
  unfold mbind at 1, M_bind at 1.
  pose proof (mag_cuts_calls
                (h ++ [E_FileSEDGrid (modelsedgridfile (datamodel.project dm))])) as Hc.
  destruct (mag_cuts W dm _) as [calls0 [cuts|err]]; cbn [fst snd app] in *.
  2:{ intros Hin Hpos. destruct Hc as [-> | [-> | ->]]; in_list Hin. }
  unfold mbind, M_bind, call, mret, M_ret.
  destruct (w_none W _ (E_pick_models _ _ _ _ _)) as [[]|err]; cbn [fst snd app].
  2:{ intros Hin Hpos. destruct Hc as [-> | [-> | ->]]; in_list Hin. }
  destruct (datamodel.ast_with_positions dm).
  - destruct (datamodel.ast_reference_image dm) as [image|]; cbn [fst snd app].
    all: intros Hin Hpos; destruct Hc as [-> | [-> | ->]]; cbn [app] in Hin; in_list Hin.
    all: by injection Hpos as <- <- <-.
  - cbn [fst snd app]. intros Hin Hpos.
    destruct Hc as [-> | [-> | ->]]; cbn [app] in Hin; in_list Hin.
Qed.

(** X12. Any call of [summary_table_memory] made by the fit stage has the
    catalog and the noise model that the stage loaded before, the grid file
    [P/P_seds_trim.grid.hd5], the resume flag, threshold -10, a save every
    100 points, 60 lnp points, and the three output names of the stage. *)
Theorem fit_summary_call resume h c :
  let project := datamodel.project dm in
  let loaded := E_get_noisemodelcat (noisemodelfile project) in
  c ∈ fst (fit_body W dm resume h) → is_summary_table_memory c = true →
  ∃ obsdata noisemodel_vals,
    c = E_summary_table_memory obsdata noisemodel_vals
          (((project +:+ "/") +:+ project) +:+ "_seds_trim.grid.hd5") resume
          (flit (-10) 0) 100%Z 60%Z
          (((project +:+ "/") +:+ project) +:+ "_stats.fits")
          (pdf1dfile project) (lnpfile project) ∧
    w_obj W (h ++ [E_time_clock]) loaded = Ok noisemodel_vals ∧
    snd (get_obscat W dm (datamodel.obsfile dm) (datamodel.filters dm)
           ((h ++ [E_time_clock]) ++ [loaded])) = Ok obsdata.
Proof.
  intros project loaded.
  unfold fit_body, call, emit, mbind, M_bind. fold project. fold loaded.
  destruct (w_float W h _) as [start_time|err]; cbn [fst snd app];
    [|intros Hin; in_list Hin].
  destruct (w_obj W _ loaded) as [noisemodel_vals|err]; cbn [fst snd app];
    [|intros Hin; in_list Hin].
  pose proof (get_obscat_calls W dm (datamodel.obsfile dm) (datamodel.filters dm)
                ((h ++ [E_time_clock]) ++ [loaded])) as Hc.
  destruct (get_obscat W dm _ _ _) as [calls0 [obsdata|err]]; simpl in Hc.
  2:{ cbn [fst snd app]. intros Hin. destruct Hc as [-> | ->]; in_list Hin. }
  repeat match goal with
         | |- context [w_none W ?h ?e] => destruct (w_none W h e) as [[]|?]
         | |- context [w_float W ?h ?e] => destruct (w_float W h e) as [?|?]
         end.
  all: cbn [fst snd app]; intros Hin Hw.
  all: destruct Hc as [-> | ->]; cbn [app] in Hin; in_list Hin.
  all: by exists obsdata, noisemodel_vals.
Qed.
End stage_more.

Lemma any_args_parse_args (argv : list flag) :
  any_args (parse_args argv) = false ↔ argv = [].
Proof.
  split; [|by intros ->].
  destruct argv as [|fl argv]; [done|]. intros Hany. exfalso.
  assert (fl ∈ fl :: argv) as Hin by left.
  unfold any_args, parse_args in Hany. cbn in Hany.
  destruct fl;
    match type of Hin with
    | ?P => rewrite (bool_decide_eq_true_2 P Hin) in Hany
    end;
    by rewrite ?orb_true_r in Hany.
Qed.

Section script_more.
Context {F : Type} `{NumOps F} {Obj : Type}.
Variable W : World F Obj.
Variable dm : datamodel.t F Obj.
Local Abbreviation event := (Event F Obj).

Ltac run_sections :=
  unfold script;
  cbn [args_physicsmodel args_ast args_observationmodel args_trim args_fit
       args_resume any_args negb orb];
  repeat first
    [ rewrite enter_then | rewrite when_true_then | rewrite when_false_then
    | rewrite when_last
    | match goal with
      | |- context [match ?body (calls_of ?bs) with _ => _ end] =>
          destruct (body (calls_of bs)) as [? [[]|?]]
      end ];
  cbn [fst snd].

(** X4. When the verification of the configuration raises, the run ends with
    that error after the verification call alone, whatever the flags: no
    stage is entered and no help is printed. *)
Theorem failed_verification_stops_run (argv : list flag) e :
  w_none W [] E_verify_input_format = Raise e →
  run_beast W dm argv = ([(Verify, [E_verify_input_format])], Raise e).
Proof.
  intros Hverify. unfold run_beast, script. rewrite enter_then.
  unfold call at 1. cbn [calls_of map concat]. by rewrite Hverify.
Qed.

(** X5. The help fallback is entered exactly when no flag is given and the
    verification of the configuration returns. *)
Theorem help_only_without_flags (argv : list flag) :
  Help ∈ map fst (fst (run_beast W dm argv)) ↔
  argv = [] ∧ w_none W [] E_verify_input_format = Ok tt.
Proof.
  unfold run_beast. rewrite <- any_args_parse_args.
  destruct (parse_args argv) as [[] [] [] [] [] []].
  all: unfold script;
       cbn [args_physicsmodel args_ast args_observationmodel args_trim args_fit
            args_resume any_args negb orb];
       rewrite enter_then; unfold call at 1; cbn [calls_of map concat];
       destruct (w_none W [] E_verify_input_format) as [[]|err].
  all: run_sections.
  all: cbn [app map fst].
  all: split; [intros Hin|intros [? ?]; try done].
  all: try (repeat (apply elem_of_cons in Hin as [?|Hin]; [done|]);
            by apply elem_of_nil in Hin).
  all: try done.
  all: set_solver.
Qed.
End script_more.

Section chain.
Context {F : Type} `{NumOps F} {Obj : Type}.
Variable W : World F Obj.
Variable dm : datamodel.t F Obj.
Local Abbreviation event := (Event F Obj).

(** X13. When the age grid has its three entries, the distances have a valid
    unit and every library call returns, the physicsmodel stage makes its six
    calls in order and returns, each builder receiving the object the call
    before it returned: the isochrones go to the spectral grid, the spectral
    grid to the priors, the grid with priors to the distances, and the grid
    with distances to the extinguished SED grid. *)
Theorem physicsmodel_chain h logtmin logtmax dlogt more distances
    pdir iso_fname oiso spec_fname g_spec pspec_fname g_pspec g_pdist_pspec
    seds_fname g_seds :
  let project := datamodel.project dm in
  let kwargs := datamodel.add_spectral_properties_kwargs dm in
  let c1 := E_create_project_dir project in
  let c2 := E_make_iso_table project (datamodel.oiso dm) logtmin logtmax dlogt
              (datamodel.z dm) in
  let c3 := E_make_spectral_grid project oiso (datamodel.osl dm) distances kwargs in
  let c4 := E_add_stellar_priors project g_spec in
  let c5 := E_make_grid_with_distances project g_pspec distances in
  let c6 := E_make_extinguished_sed_grid project g_pdist_pspec
              (datamodel.filters dm) (datamodel.extLaw dm)
              (datamodel.avs dm) (datamodel.rvs dm) (datamodel.fAs dm)
              (datamodel.rv_prior_model dm) (datamodel.av_prior_model dm)
              (datamodel.fA_prior_model dm) kwargs in
  datamodel.logt dm = logtmin :: logtmax :: dlogt :: more →
  physicsmodel_distances (datamodel.distances dm) = Ok distances →
  w_obj W h c1 = Ok pdir →
  w_named W (h ++ [c1]) c2 = Ok (iso_fname, oiso) →
  w_named W ((h ++ [c1]) ++ [c2]) c3 = Ok (spec_fname, g_spec) →
  w_named W (((h ++ [c1]) ++ [c2]) ++ [c3]) c4 = Ok (pspec_fname, g_pspec) →
  w_obj W ((((h ++ [c1]) ++ [c2]) ++ [c3]) ++ [c4]) c5 = Ok g_pdist_pspec →
  w_named W (((((h ++ [c1]) ++ [c2]) ++ [c3]) ++ [c4]) ++ [c5]) c6
    = Ok (seds_fname, g_seds) →
  physicsmodel_body W dm h = ([c1; c2; c3; c4; c5; c6], Ok tt).
Proof.
  intros project kwargs c1 c2 c3 c4 c5 c6 Hlogt Hdist H1 H2 H3 H4 H5 H6.
  unfold physicsmodel_body, call, lift, mbind, M_bind, mret, M_ret.
  rewrite Hlogt, Hdist.
  pose proof (py_index_nat (logtmin :: logtmax :: dlogt :: more) 0 logtmin eq_refl) as E0.
  pose proof (py_index_nat (logtmin :: logtmax :: dlogt :: more) 1 logtmax eq_refl) as E1.
  pose proof (py_index_nat (logtmin :: logtmax :: dlogt :: more) 2 dlogt eq_refl) as E2.
  change (Z.of_nat 0) with 0%Z in E0. change (Z.of_nat 1) with 1%Z in E1.
  change (Z.of_nat 2) with 2%Z in E2. rewrite E0, E1, E2.
  fold project kwargs. fold c1. rewrite H1. rewrite !app_nil_r.
  fold c2. rewrite H2. rewrite !app_nil_r.
  fold c3. rewrite H3.
  fold c4. rewrite H4.
  fold c5. rewrite H5.
  fold c6. rewrite H6. reflexivity.
Qed.
End chain.

(** ** The further properties at the example project *)

Lemma fit_opens_trimmed_grid_witness :
  fit_modelsedgrid "beast_example_phat" = sed_trimname "beast_example_phat".
Proof.
  apply (proj2 (fit_opens_trimmed_grid "beast_example_phat")). reflexivity.
Defined.

Lemma fit_output_names_witness :
  pdf1dfile "beast_example_phat"
    = "beast_example_phat/beast_example_phat_pdf1d.fits" ∧
  lnpfile "beast_example_phat" = "beast_example_phat/beast_example_phat_lnp.hd5".
Proof.
  destruct (fit_output_names "beast_example_phat") as (_ & _ & _ & _ & _ & Hplain).
  apply Hplain. reflexivity.
Defined.

Lemma failed_verification_stops_run_witness :
  run_beast (H := Z_NumOps) (example_world_without is_verify_input_format) example_mag
    [opt_physicsmodel; opt_fit]
  = ([(Verify, [E_verify_input_format])], Raise (LibraryError "missing")).
Proof.
  apply (failed_verification_stops_run (H := Z_NumOps)
           (example_world_without is_verify_input_format) example_mag).
  reflexivity.
Defined.

Lemma help_only_without_flags_witness :
  Help ∈ map fst (fst (run_beast (H := Z_NumOps) example_world example_mag [])).
Proof.
  apply (proj2 (help_only_without_flags (H := Z_NumOps) example_world example_mag [])).
  split; reflexivity.
Defined.

Lemma missing_grid_stops_stage_witness :
  ast_body (H := Z_NumOps) (example_world_without is_FileSEDGrid) example_mag [] =
    ([E_FileSEDGrid "beast_example_phat/beast_example_phat_seds.grid.hd5"],
     Raise (LibraryError "missing")) ∧
  Forall (λ c, is_get_noisemodelcat c = false ∧ trim_outputs c = None)
    (fst (trim_body (H := Z_NumOps) (example_world_without is_FileSEDGrid)
            example_mag [])).
Proof.
  destruct (missing_grid_stops_stage (H := Z_NumOps)
              (example_world_without is_FileSEDGrid) example_mag
              (LibraryError "missing") (λ h, eq_refl) [])
    as (Hast & _ & _ & Htrim).
  split; [exact Hast | exact Htrim].
Defined.

Lemma ast_configured_cuts_witness :
  ∃ calls r,
    ast_body (H := Z_NumOps) example_world
      (example_variant ["F475W"; "F814W"] [26; 27]%Z) [] =
    (E_FileSEDGrid "beast_example_phat/beast_example_phat_seds.grid.hd5" ::
     E_pick_models "obj" [26; 27]%Z 3%Z 70%Z 20%Z :: calls, r).
Proof.
  refine (proj1 (ast_configured_cuts (H := Z_NumOps) example_world
                   (example_variant ["F475W"; "F814W"] [26; 27]%Z) [] "obj" _ _)).
  - discriminate.
  - reflexivity.
Defined.

Lemma ast_positions_witness :
  datamodel.ast_with_positions example_mag = true ∧
  "beast_example_phat/beast_example_phat_inputAST.txt"
    = ((datamodel.project example_mag +:+ "/") +:+ datamodel.project example_mag)
        +:+ "_inputAST.txt" ∧
  10%Z = datamodel.ast_pixel_distribution example_mag ∧
  None = datamodel.ast_reference_image example_mag.
Proof.
  apply (ast_positions (H := Z_NumOps) example_world example_mag []
           (E_pick_positions "beast_example_phat/beast_example_phat_inputAST.txt"
              10%Z None)).
  - apply (list_elem_of_lookup_2 _ 4). reflexivity.
  - reflexivity.
Defined.


Lemma vega_column_of_filter_witness :
  ∃ obsdata,
    snd (GenFluxCatalog_init example_world example_mag
           "data/b15_4band_det_27_A.fits" (datamodel.filters example_mag) [])
      = Ok obsdata ∧
    sfiltername obsdata "HST_ACS_WFC_F814W" = "F814W_VEGA".
Proof.
  destruct (GenFluxCatalog_init example_world example_mag
              "data/b15_4band_det_27_A.fits" (datamodel.filters example_mag) [])
    as [calls [obsdata|err]] eqn:Hinit; [|discriminate Hinit].
  exists obsdata. split; [reflexivity|].
  apply (vega_column_of_filter example_world example_mag _ _ _ _ _
           1 "HST_ACS_WFC_F814W" "F814W" Hinit).
  - apply (bool_decide_unpack _). reflexivity.
  - reflexivity.
  - reflexivity.
Defined.

Lemma physicsmodel_grids_need_valid_config_witness :
  3 ≤ length (datamodel.logt example_mag) ∧
  ∃ d0 rest, datamodel.distances example_mag = d0 :: rest ∧
             (unit_of d0 = u_mag ∨ unit_of d0 = u_pc).
Proof.
  apply (physicsmodel_grids_need_valid_config (H := Z_NumOps) example_world
           example_mag []
           (E_make_spectral_grid "beast_example_phat" "obj" "Tlusty+Kurucz"
              (QuantityArray [100000; 1000000]%Z u_pc) (Some "filternames"))).
  - apply (list_elem_of_lookup_2 _ 2). reflexivity.
  - reflexivity.
Defined.

Lemma fit_summary_call_witness :
  ∃ obsdata noisemodel_vals,
    fst (fit_body (H := Z_NumOps) example_world example_mag true []) !! 5 =
    Some (E_summary_table_memory obsdata noisemodel_vals
            "beast_example_phat/beast_example_phat_seds_trim.grid.hd5" true
            (-10)%Z 100%Z 60%Z
            "beast_example_phat/beast_example_phat_stats.fits"
            "beast_example_phat/beast_example_phat_pdf1d.fits"
            "beast_example_phat/beast_example_phat_lnp.hd5").
Proof.
  destruct (fst (fit_body (H := Z_NumOps) example_world example_mag true []) !! 5)
    as [c|] eqn:Hc; [|discriminate Hc].
  destruct (fit_summary_call (H := Z_NumOps) example_world example_mag
              true [] c) as (obsdata & noisemodel_vals & -> & _).
  - by apply list_elem_of_lookup_2 in Hc.
  - vm_compute in Hc. by injection Hc as <-.
  - by exists obsdata, noisemodel_vals.
Defined.

Lemma physicsmodel_chain_witness :
  physicsmodel_body (H := Z_NumOps) example_world example_mag [] =
  ([E_create_project_dir "beast_example_phat";
    E_make_iso_table "beast_example_phat" "PadovaWeb" 6%Z 10%Z 1%Z "z";
    E_make_spectral_grid "beast_example_phat" "obj" "Tlusty+Kurucz"
      (QuantityArray [100000; 1000000]%Z u_pc) (Some "filternames");
    E_add_stellar_priors "beast_example_phat" "obj";
    E_make_grid_with_distances "beast_example_phat" "obj"
      (QuantityArray [100000; 1000000]%Z u_pc);
    E_make_extinguished_sed_grid "beast_example_phat" "obj"
      ["HST_ACS_WFC_F475W"; "HST_ACS_WFC_F814W"] "Gordon16_RvFALaw"
      [0; 10; 1]%Z [2; 6; 1]%Z [0; 1; 1]%Z "flat" "flat" "flat"
      (Some "filternames")], Ok tt).
Proof.
  apply (physicsmodel_chain (H := Z_NumOps) example_world example_mag []
           6%Z 10%Z 1%Z [] (QuantityArray [100000; 1000000]%Z u_pc)
           "obj" "fname" "obj" "fname" "obj" "fname" "obj" "obj" "fname" "obj");
    reflexivity.
Defined.
